(** * Rain alert monitor: the snooze state machine and the alert decision

    A shallow embedding of the two request handlers of the repository:
    the handler with snooze support (Redis helpers [getSnoozeState],
    [setSnooze], [clearSnooze], [hasResumeEmailBeenSent],
    [markResumeEmailSent] and [handler]) and the plain handler of
    [api/check-precipitation.ts] ([Plain.handler]).

    Modelling choices.
    - Rainfall amounts, thresholds, band bounds and coordinates are
      JavaScript numbers: binary64 floats, here the primitive floats of Rocq,
      with the comparisons of IEEE 754 (a comparison with NaN is false).
    - Snooze durations in weeks are floats too, and so is the expiry
      [now + weeks * 7 * 24 * 60 * 60], computed with the float operations.
      Clock readings ([Math.floor(Date.now() / 1000)]) are integers ([Z]),
      turned into floats where the code adds to them.
    - [Number.prototype.toString] prints NaN, the infinities and the whole
      numbers below 2^53 as JavaScript does, and the sign and the integer
      part of the other numbers it writes in decimal form. The digits
      after the point, the form of the numbers from 2^53 on and the
      exponent form of the numbers below 10^-6 are not computed here: they
      are taken from a [NumberFormat].
    - [parseInt(s, 10)] reads the longest decimal prefix into an integer,
      giving NaN when there is none.
    - Redis is a finite map from keys to strings.  Every awaited Redis call
      may reject: a helper receives the position of the call that rejects
      ([None] when all succeed).
    - The clock, the mail service and the weather service are outside the
      program; one run receives their answers in an [Oracle].
    - A run threads a [World]: the Redis contents and the trace of what
      the run did to the outside (Redis commands, mails, weather requests,
      [console.error] lines).  Informational [console.log] lines are left
      out, but for the date that [setSnooze] formats for its log line,
      which can raise.
    - [new Date(ms).toISOString()] raises a RangeError on NaN and outside
      the range of Date (8.64e15 milliseconds either side of 1970).
    - A mail is its template and what fills its holes; the alert template
      of the two handlers differs in the degree sign of its location line,
      which the mail carries. *)

From Stdlib Require Import ZArith Floats Ascii String List DecimalString DecimalZ DecimalPos.
From stdpp Require Import gmap strings.
Import ListNotations.

#[local] Set Warnings "-inexact-float,-register-all".
#[local] Open Scope string_scope.
#[local] Open Scope list_scope.
#[local] Open Scope Z_scope.

(** ** JavaScript values *)

(** The numbers [parseInt] returns. *)
Inductive num : Type :=
| NaN
| Num (z : Z).

Definition js_gt (a b : num) : bool :=
  match a, b with
  | Num x, Num y => y <? x
  | _, _ => false
  end.

Definition js_le (a b : num) : bool :=
  match a, b with
  | Num x, Num y => x <=? y
  | _, _ => false
  end.

Definition js_neg (a : num) : num :=
  match a with
  | NaN => NaN
  | Num z => Num (- z)
  end.

(** Truthiness of a [number | null]: null, NaN and 0 are falsy. *)
Definition truthy_num (v : option num) : bool :=
  match v with
  | Some (Num z) => negb (z =? 0)
  | _ => false
  end.

(** Truthiness of a string: the empty string is falsy.  An unset
    environment variable is modelled by the empty string. *)
Definition truthy (s : string) : bool :=
  match s with
  | EmptyString => false
  | String _ _ => true
  end.

(** [v === s] for a [string | null] read from Redis. *)
Definition strict_eq (v : option string) (s : string) : bool :=
  match v with
  | Some x => String.eqb x s
  | None => false
  end.

(** [v !== null]. *)
Definition not_null {A} (v : option A) : bool :=
  match v with
  | Some _ => true
  | None => false
  end.

(** [Number.prototype.toString] on an integer. *)
Definition toString (z : Z) : string := NilZero.string_of_int (Z.to_int z).

(** The magnitude of a finite non-zero float, as an exact fraction. *)
Definition magnitude (m : positive) (e : Z) : Z * Z :=
  if 0 <=? e then (Z.pos m * 2 ^ e, 1) else (Z.pos m, 2 ^ (- e)).

(** The integer a float is equal to, when it is a whole number. *)
Definition intValue (x : float) : option Z :=
  match Prim2SF x with
  | S754_zero _ => Some 0
  | S754_finite s m e =>
      let '(n, d) := magnitude m e in
      if n mod d =? 0 then Some (if s then - (n / d) else n / d) else None
  | _ => None
  end.

(** What [Number.prototype.toString] needs beyond the whole numbers below
    2^53: the digits after the point of a number written in decimal form,
    the form of a number from 2^53 on (its shortest digits padded with
    zeros, or the exponent form from 10^21 on), and the exponent form of a
    number below 10^-6. *)
Record NumberFormat : Type := {
  fractionDigits : float -> string;
  largeForm : float -> string;
  tinyForm : float -> string
}.

(** [Number.prototype.toString]. *)
Definition numberToString (fmt : NumberFormat) (x : float) : string :=
  match Prim2SF x with
  | S754_nan => "NaN"
  | S754_infinity s => if s then "-Infinity" else "Infinity"
  | S754_zero _ => "0"
  | S754_finite s m e =>
      let '(n, d) := magnitude m e in
      if 2 ^ 53 * d <=? n then largeForm fmt x
      else if n mod d =? 0 then toString (if s then - (n / d) else n / d)
      else if n * 10 ^ 6 <? d then tinyForm fmt x
      else (if s then "-" else EmptyString) +:+ toString (n / d) +:+ "."
           +:+ fractionDigits fmt x
  end.

(** A clock reading as a float. *)
Definition float_of_Z (z : Z) : float := SF2Prim (binary_normalize prec emax z 0 false).

(** [now + (weeks * 7 * 24 * 60 * 60)]. *)
Definition expiryOf (now : Z) (weeks : float) : float :=
  (float_of_Z now + weeks * 7 * 24 * 60 * 60)%float.

(** The time values [new Date(ms)] accepts: finite, at most 8.64e15 in
    absolute value. *)
Definition validTime (ms : float) : bool := (abs ms <=? 8.64e15)%float.

Definition is_digit (c : ascii) : bool :=
  match uint_of_char c (Some Decimal.Nil) with
  | Some _ => true
  | None => false
  end.

Definition is_space (c : ascii) : bool :=
  let n := nat_of_ascii c in
  ((9 <=? n) && (n <=? 13))%nat || (n =? 32)%nat.

Fixpoint skip_space (s : string) : string :=
  match s with
  | String c s' => if is_space c then skip_space s' else s
  | EmptyString => EmptyString
  end.

Fixpoint digit_prefix (s : string) : string :=
  match s with
  | String c s' => if is_digit c then String c (digit_prefix s') else EmptyString
  | EmptyString => EmptyString
  end.

Definition parse_digits (s : string) : num :=
  let ds := digit_prefix s in
  if truthy ds then
    match NilEmpty.uint_of_string ds with
    | Some d => Num (Z.of_uint d)
    | None => NaN
    end
  else NaN.

(** [parseInt(s, 10)]: leading white space is skipped, a sign is read,
    then the longest run of decimal digits; what follows is ignored. *)
Definition parseInt (s : string) : num :=
  match skip_space s with
  | String "-"%char s' => js_neg (parse_digits s')
  | String "+"%char s' => parse_digits s'
  | s' => parse_digits s'
  end.

(** JSON payloads of [Response.json]. *)
Inductive json : Type :=
| JNull
| JBool (b : bool)
| JNum (x : float)
| JStr (s : string)
| JStrs (l : list string)
| JIsoDate (ms : Z)
| JObj (fields : list (string * json)).

Record Response : Type := {
  status : Z;
  body : list (string * json)
}.

Definition Response_json (st : Z) (data : list (string * json)) : Response :=
  {| status := st; body := data |}.

Fixpoint field (k : string) (data : list (string * json)) : option json :=
  match data with
  | [] => None
  | (k', v) :: rest => if String.eqb k k' then Some v else field k rest
  end.

(** ** The outside world *)

Inductive RedisCmd : Type :=
| Connect (url : string)
| Get (key : string)
| Set_ (key value : string)
| Del (key : string)
| Quit.

(** The two mails of the program, by template and by what fills its
    holes. The alert template exists in two versions that differ in the
    sign written after the latitude and the longitude; [degree] is that
    sign. *)
Inductive Mail : Type :=
| ResumeMail (from to : string) (lat lon : float)
| AlertMail (from to : string) (degree : string) (lat lon : float)
    (startDateStr endDateStr : string) (total threshold : float).

(** The sign in the alert template of the handler with snooze support:
    the bytes EC A7 B8 (U+C9F8). *)
Definition degree_snooze : string :=
  String (ascii_of_nat 236) (String (ascii_of_nat 167) (String (ascii_of_nat 184) EmptyString)).

(** The sign in the alert template of the plain handler: the bytes C2 B0
    (U+00B0, the degree sign). *)
Definition degree_plain : string :=
  String (ascii_of_nat 194) (String (ascii_of_nat 176) EmptyString).

Inductive Event : Type :=
| EvRedis (c : RedisCmd) (ok : bool)
| EvSend (m : Mail) (error : option string)
| EvFetch (lat lon : float) (start_date end_date : string)
| EvError (msg : string).

Record World : Type := {
  redis : gmap string string;
  fuse : option nat;
  trace : list Event
}.

(** ** Exceptions and state *)

Inductive Result (A : Type) : Type :=
| Ok (a : A)
| Throw (message : string).
Arguments Ok {A} a.
Arguments Throw {A} message.

Definition M (A : Type) : Type := World -> Result A * World.

Definition ret {A} (a : A) : M A := fun w => (Ok a, w).

Definition bind {A B} (m : M A) (k : A -> M B) : M B := fun w =>
  match m w with
  | (Ok a, w') => k a w'
  | (Throw e, w') => (Throw e, w')
  end.

Definition throw {A} (e : string) : M A := fun w => (Throw e, w).

Definition try_catch {A} (body : M A) (handler : string -> M A) : M A := fun w =>
  match body w with
  | (Ok a, w') => (Ok a, w')
  | (Throw e, w') => handler e w'
  end.

Declare Scope js_scope.
Delimit Scope js_scope with js.
Notation "x <- m ;; k" := (bind m (fun x => k))
  (at level 100, m at next level, right associativity) : js_scope.
Notation "m ;; k" := (bind m (fun _ => k))
  (at level 100, right associativity) : js_scope.
#[local] Open Scope js_scope.

Definition emit (e : Event) : M unit := fun w =>
  (Ok tt, {| redis := redis w; fuse := fuse w; trace := trace w ++ [e] |}).

Definition console_error (msg : string) : M unit := emit (EvError msg).

(** Arms the fault of a helper: [Some n] makes its awaited Redis call
    number [n] (from 0) reject. *)
Definition arm (fault : option nat) : M unit := fun w =>
  (Ok tt, {| redis := redis w; fuse := fault; trace := trace w |}).

(** One awaited Redis call. A rejected call has no effect on the store. *)
Definition redis_call {A} (c : RedisCmd)
    (run : gmap string string -> A * gmap string string) : M A := fun w =>
  match fuse w with
  | Some O =>
      (Throw "redis", {| redis := redis w; fuse := None; trace := trace w ++ [EvRedis c false] |})
  | f =>
      let '(a, st) := run (redis w) in
      (Ok a, {| redis := st; fuse := Nat.pred <$> f; trace := trace w ++ [EvRedis c true] |})
  end.

Definition getRedisClient (redisUrl : string) : M unit :=
  redis_call (Connect redisUrl) (fun st => (tt, st)).

Definition client_get (key : string) : M (option string) :=
  redis_call (Get key) (fun st => (st !! key, st)).

Definition client_set (key value : string) : M unit :=
  redis_call (Set_ key value) (fun st => (tt, <[key := value]> st)).

Definition client_del (key : string) : M unit :=
  redis_call (Del key) (fun st => (tt, delete key st)).

Definition client_quit : M unit :=
  redis_call Quit (fun st => (tt, st)).

(** ** Redis helpers *)

Record SnoozeState : Type := {
  isSnoozed : bool;
  expiresAt : option num
}.

Definition snoozeKey (locationKey : string) : string := "snooze:" +:+ locationKey.
Definition resumeSentKey (locationKey : string) : string := "snooze:resume_sent:" +:+ locationKey.

Definition getSnoozeState (fault : option nat) (now : Z) (redisUrl locationKey : string)
    : M SnoozeState :=
  try_catch
    (arm fault ;;
     getRedisClient redisUrl ;;
     expiryTimestamp <- client_get (snoozeKey locationKey) ;;
     client_quit ;;
     match expiryTimestamp with
     | Some s =>
         if truthy s then
           let expiresAt := parseInt s in
           ret {| isSnoozed := js_gt expiresAt (Num now); expiresAt := Some expiresAt |}
         else ret {| isSnoozed := false; expiresAt := None |}
     | None => ret {| isSnoozed := false; expiresAt := None |}
     end)
    (fun error =>
       console_error "Error getting snooze state:" ;;
       ret {| isSnoozed := false; expiresAt := None |}).

(** [new Date(ms).toISOString()] where only the raise matters: the
    string goes to [console.log]. *)
Definition logDate (ms : float) : M unit :=
  if validTime ms then ret tt else throw "Invalid time value".

Definition setSnooze (fmt : NumberFormat) (fault : option nat) (now : Z)
    (redisUrl locationKey : string) (weeks : float) : M unit :=
  try_catch
    (arm fault ;;
     getRedisClient redisUrl ;;
     let expiresAt := expiryOf now weeks in
     client_set (snoozeKey locationKey) (numberToString fmt expiresAt) ;;
     client_quit ;;
     logDate (expiresAt * 1000)%float)
    (fun error =>
       console_error "Error setting snooze:" ;;
       throw error).

Definition clearSnooze (fault : option nat) (redisUrl locationKey : string) : M unit :=
  try_catch
    (arm fault ;;
     getRedisClient redisUrl ;;
     client_del (snoozeKey locationKey) ;;
     client_del (resumeSentKey locationKey) ;;
     client_quit)
    (fun error =>
       console_error "Error clearing snooze:" ;;
       throw error).

Definition hasResumeEmailBeenSent (fault : option nat) (redisUrl locationKey : string) : M bool :=
  try_catch
    (arm fault ;;
     getRedisClient redisUrl ;;
     sent <- client_get (resumeSentKey locationKey) ;;
     client_quit ;;
     ret (strict_eq sent "1"))
    (fun error =>
       console_error "Error checking resume email flag:" ;;
       ret false).

Definition markResumeEmailSent (fault : option nat) (redisUrl locationKey : string) : M unit :=
  try_catch
    (arm fault ;;
     getRedisClient redisUrl ;;
     client_set (resumeSentKey locationKey) "1" ;;
     client_quit)
    (fun error =>
       console_error "Error marking resume email as sent:").

(** ** Configuration and the answers of the outside services *)

(** The string-valued environment variables; an unset variable is the
    empty string. *)
Record EnvVars : Type := {
  RESEND_API_KEY : string;
  ALERT_EMAIL : string;
  SENDER_EMAIL : string;
  db_REDIS_URL : string
}.

(** The numeric settings, as the handler holds them after [parseFloat]
    of each variable or of its default. *)
Record Settings : Type := {
  latitude : float;
  longitude : float;
  thresholdInches : float;
  snoozeMediumMin : float;
  snoozeMediumMax : float;
  snoozeMediumWeeks : float;
  snoozeHighMin : float;
  snoozeHighWeeks : float
}.

Definition default_settings : Settings := {|
  latitude := 37.8044;
  longitude := -122.2708;
  thresholdInches := 0.5;
  snoozeMediumMin := 0.5;
  snoozeMediumMax := 1.0;
  snoozeMediumWeeks := 2%float;
  snoozeHighMin := 1.0;
  snoozeHighWeeks := 3%float
|}.

(** [response.daily()] and [daily.variables(0)?.valuesArray()]. *)
Record WeatherResponse : Type := {
  daily : option (option (list float))
}.

Inductive FetchOutcome : Type :=
| FetchThrows (message : string)
| FetchReturns (responses : option (list WeatherResponse)).

Record Oracle : Type := {
  now_status : Z;            (* clock read by getSnoozeState *)
  now_expiry : Z;            (* clock read by the expiry test of the handler *)
  now_snooze : Z;            (* clock read by setSnooze *)
  startDateStr : string;
  endDateStr : string;
  get_fault : option nat;    (* Redis faults, one per helper call *)
  has_fault : option nat;
  mark_fault : option nat;
  clear_fault : option nat;
  set_fault : option nat;
  resume_result : option string;   (* resumeEmailResult.error *)
  alert_result : option string;    (* emailResult.error *)
  weather : FetchOutcome
}.

Definition emails_send (result : option string) (m : Mail) : M (option string) :=
  emit (EvSend m result) ;; ret result.

Definition fetchWeatherApi (outcome : FetchOutcome) (lat lon : float) (start_date end_date : string)
    : M (option (list WeatherResponse)) :=
  emit (EvFetch lat lon start_date end_date) ;;
  match outcome with
  | FetchThrows e => throw e
  | FetchReturns r => ret r
  end.

(** [new Date(ms).toISOString()] on the product of a [parseInt] result:
    a RangeError on NaN and outside the range of Date. *)
Definition toISOString (ms : num) : M json :=
  match ms with
  | Num z =>
      if Z.abs z <=? 8640000000000000 then ret (JIsoDate z)
      else throw "Invalid time value"
  | NaN => throw "Invalid time value"
  end.

(** [expiresAt! * 1000]: null counts as 0 in the product. *)
Definition times1000 (v : option num) : num :=
  match v with
  | Some (Num z) => Num (z * 1000)
  | Some NaN => NaN
  | None => Num 0
  end.

(** ** The alert decision and the snooze tier *)

Definition totalInches (precipitationValues : list float) : float :=
  (fold_left (fun sum value => sum + value) precipitationValues 0 / 25.4)%float.

Inductive Tier : Type := High | Medium.

(** The tier test of the handler: the high band is tested first. *)
Definition selectTier (s : Settings) (total : float) : option Tier :=
  if (snoozeHighMin s <=? total)%float then Some High
  else if (snoozeMediumMin s <=? total)%float && (total <=? snoozeMediumMax s)%float
       then Some Medium
       else None.

Definition tierWeeks (s : Settings) (t : Tier) : float :=
  match t with
  | High => snoozeHighWeeks s
  | Medium => snoozeMediumWeeks s
  end.

Definition json_of_weeks (snoozeWeeks : option float) : json :=
  match snoozeWeeks with
  | Some n => JNum n
  | None => JNull
  end.

Definition location_json (s : Settings) : json :=
  JObj [("latitude", JNum (latitude s)); ("longitude", JNum (longitude s))].

Definition dateRange_json (o : Oracle) : json :=
  JObj [("start", JStr (startDateStr o)); ("end", JStr (endDateStr o))].

Section Handlers.

(** [Number.prototype.toFixed], used only to build the location key. *)
Variable toFixed : float -> nat -> string.

(** The digits [Number.prototype.toString] needs for the expiry. *)
Variable fmt : NumberFormat.

Definition getLocationKey (lat lon : float) : string :=
  toFixed lat 4 +:+ "," +:+ toFixed lon 4.

Definition missingVars (env : EnvVars) : list string :=
  (if truthy (RESEND_API_KEY env) then [] else ["RESEND_API_KEY"]) ++
  (if truthy (ALERT_EMAIL env) then [] else ["ALERT_EMAIL"]) ++
  (if truthy (SENDER_EMAIL env) then [] else ["SENDER_EMAIL"]).

(** The snooze block of the handler, entered when a Redis URL is set.
    [Some r] is the early return of the handler with response [r]. *)
Definition snoozeCheck (env : EnvVars) (s : Settings) (o : Oracle)
    (redisUrl locationKey : string) : M (option Response) :=
  snoozeState <- getSnoozeState (get_fault o) (now_status o) redisUrl locationKey ;;
  if isSnoozed snoozeState then
    iso <- toISOString (times1000 (expiresAt snoozeState)) ;;
    ret (Some (Response_json 200
      [("success", JBool true); ("message", JStr "Currently snoozed");
       ("snoozed", JBool true); ("expiresAt", iso)]))
  else
    (if truthy_num (expiresAt snoozeState) &&
        match expiresAt snoozeState with
        | Some e => js_le e (Num (now_expiry o))
        | None => false
        end
     then
       resumeEmailSent <- hasResumeEmailBeenSent (has_fault o) redisUrl locationKey ;;
       (if negb resumeEmailSent then
          resumeEmailResult <- emails_send (resume_result o)
            (ResumeMail (SENDER_EMAIL env) (ALERT_EMAIL env) (latitude s) (longitude s)) ;;
          match resumeEmailResult with
          | Some _ => console_error "Failed to send resume email:"
          | None => markResumeEmailSent (mark_fault o) redisUrl locationKey
          end
        else ret tt) ;;
       clearSnooze (clear_fault o) redisUrl locationKey
     else ret tt) ;;
    ret None.

(** The precipitation check of the handler: fetch, total, threshold test,
    alert mail, snooze. *)
Definition precipitationCheck (env : EnvVars) (s : Settings) (o : Oracle)
    (redisUrl locationKey : string) : M Response :=
  responses <- fetchWeatherApi (weather o) (latitude s) (longitude s)
                 (startDateStr o) (endDateStr o) ;;
  match responses with
  | None | Some [] =>
      console_error "No weather data received" ;;
      ret (Response_json 500 [("error", JStr "Failed to fetch weather data")])
  | Some (response :: _) =>
      match daily response with
      | None =>
          console_error "No daily data available" ;;
          ret (Response_json 500 [("error", JStr "No daily weather data available")])
      | Some None =>
          console_error "No precipitation data available" ;;
          ret (Response_json 500 [("error", JStr "No precipitation data available")])
      | Some (Some precipitationValues) =>
          let totalPrecipitationInches := totalInches precipitationValues in
          if (thresholdInches s <? totalPrecipitationInches)%float then
            emailResult <- emails_send (alert_result o)
              (AlertMail (SENDER_EMAIL env) (ALERT_EMAIL env) degree_snooze
                 (latitude s) (longitude s) (startDateStr o) (endDateStr o)
                 totalPrecipitationInches (thresholdInches s)) ;;
            match emailResult with
            | Some details =>
                console_error "Failed to send email:" ;;
                ret (Response_json 500
                  [("error", JStr "Failed to send alert email"); ("details", JStr details)])
            | None =>
                let snoozeWeeks :=
                  if truthy redisUrl
                  then tierWeeks s <$> selectTier s totalPrecipitationInches
                  else None in
                match snoozeWeeks with
                | Some weeks =>
                    try_catch
                      (setSnooze fmt (set_fault o) (now_snooze o) redisUrl locationKey weeks)
                      (fun error => console_error "Failed to set snooze:")
                | None => ret tt
                end ;;
                ret (Response_json 200
                  [("success", JBool true); ("message", JStr "Alert sent");
                   ("precipitation", JNum totalPrecipitationInches);
                   ("threshold", JNum (thresholdInches s));
                   ("location", location_json s); ("dateRange", dateRange_json o);
                   ("snoozed", JBool (not_null snoozeWeeks));
                   ("snoozeWeeks", json_of_weeks snoozeWeeks)])
            end
          else
            ret (Response_json 200
              [("success", JBool true); ("message", JStr "No alert needed");
               ("precipitation", JNum totalPrecipitationInches);
               ("threshold", JNum (thresholdInches s));
               ("location", location_json s); ("dateRange", dateRange_json o)])
      end
  end.

(** The [catch] of the handler. *)
Definition internalError (error : string) : M Response :=
  console_error "Error checking precipitation:" ;;
  ret (Response_json 500 [("error", JStr "Internal server error"); ("details", JStr error)]).

Definition handler (env : EnvVars) (s : Settings) (o : Oracle) : M Response :=
  try_catch
    (if (0 <? length (missingVars env))%nat then
       console_error "Missing required environment variables:" ;;
       ret (Response_json 500
         [("error", JStr "Missing required environment variables");
          ("missing", JStrs (missingVars env))])
     else
       let locationKey := getLocationKey (latitude s) (longitude s) in
       let redisUrl := db_REDIS_URL env in
       early <- (if truthy redisUrl then snoozeCheck env s o redisUrl locationKey
                 else ret None) ;;
       match early with
       | Some r => ret r
       | None => precipitationCheck env s o redisUrl locationKey
       end)
    internalError.

End Handlers.

(** ** The plain handler, without snooze support ([api/check-precipitation.ts]) *)

Module Plain.

Definition handler (env : EnvVars) (s : Settings) (o : Oracle) : M Response :=
  try_catch
    (if negb (truthy (RESEND_API_KEY env)) || negb (truthy (ALERT_EMAIL env))
        || negb (truthy (SENDER_EMAIL env)) then
       console_error "Missing required environment variables" ;;
       ret (Response_json 500 [("error", JStr "Missing required environment variables")])
     else
       responses <- fetchWeatherApi (weather o) (latitude s) (longitude s)
                      (startDateStr o) (endDateStr o) ;;
       match responses with
       | None | Some [] =>
           console_error "No weather data received" ;;
           ret (Response_json 500 [("error", JStr "Failed to fetch weather data")])
       | Some (response :: _) =>
           match daily response with
           | None =>
               console_error "No daily data available" ;;
               ret (Response_json 500 [("error", JStr "No daily weather data available")])
           | Some None =>
               console_error "No precipitation data available" ;;
               ret (Response_json 500 [("error", JStr "No precipitation data available")])
           | Some (Some precipitationValues) =>
               let totalPrecipitationInches := totalInches precipitationValues in
               if (thresholdInches s <? totalPrecipitationInches)%float then
                 emailResult <- emails_send (alert_result o)
                   (AlertMail (SENDER_EMAIL env) (ALERT_EMAIL env) degree_plain
                      (latitude s) (longitude s) (startDateStr o) (endDateStr o)
                      totalPrecipitationInches (thresholdInches s)) ;;
                 match emailResult with
                 | Some details =>
                     console_error "Failed to send email:" ;;
                     ret (Response_json 500
                       [("error", JStr "Failed to send alert email"); ("details", JStr details)])
                 | None =>
                     ret (Response_json 200
                       [("success", JBool true); ("message", JStr "Alert sent");
                        ("precipitation", JNum totalPrecipitationInches);
                        ("threshold", JNum (thresholdInches s));
                        ("location", location_json s); ("dateRange", dateRange_json o)])
                 end
               else
                 ret (Response_json 200
                   [("success", JBool true); ("message", JStr "No alert needed");
                    ("precipitation", JNum totalPrecipitationInches);
                    ("threshold", JNum (thresholdInches s));
                    ("location", location_json s); ("dateRange", dateRange_json o)])
           end
       end)
    (fun error =>
       console_error "Error checking precipitation:" ;;
       ret (Response_json 500 [("error", JStr "Internal server error"); ("details", JStr error)])).

End Plain.

(** ** The states of the snooze machine

    The handler distinguishes three cases on what [getSnoozeState]
    returned: snoozed (early return), expired (resume notice and clear),
    and neither. *)

Inductive Status : Type := ACTIVE | SNOOZED | EXPIRING.

Definition expired (st : SnoozeState) (now : Z) : bool :=
  truthy_num (expiresAt st) &&
  match expiresAt st with
  | Some e => js_le e (Num now)
  | None => false
  end.

Definition snoozeStatus (st : SnoozeState) (now : Z) : Status :=
  if isSnoozed st then SNOOZED
  else if expired st now then EXPIRING
  else ACTIVE.

Definition absent : SnoozeState := {| isSnoozed := false; expiresAt := None |}.

(** What [getSnoozeState] makes of the value read under the snooze key. *)
Definition stateOf (v : option string) (now : Z) : SnoozeState :=
  match v with
  | Some s =>
      if truthy s
      then {| isSnoozed := js_gt (parseInt s) (Num now); expiresAt := Some (parseInt s) |}
      else absent
  | None => absent
  end.

(** ** Observations on a trace *)

Definition is_send (e : Event) : bool :=
  match e with EvSend _ _ => true | _ => false end.

Definition is_fetch (e : Event) : bool :=
  match e with EvFetch _ _ _ _ => true | _ => false end.

Definition is_redis (e : Event) : bool :=
  match e with EvRedis _ _ => true | _ => false end.

(** The mails handed to the mail service, each with the error it got. *)
Definition mails (t : list Event) : list Event := List.filter is_send t.

(** The requests made to the weather service. *)
Definition fetches (t : list Event) : list Event := List.filter is_fetch t.

(** The commands issued to Redis. *)
Definition redis_cmds (t : list Event) : list Event := List.filter is_redis t.

(** The resume notices that were delivered. *)
Definition is_delivered_resume (e : Event) : bool :=
  match e with EvSend (ResumeMail _ _ _ _) None => true | _ => false end.

Definition delivered_resume (t : list Event) : list Event :=
  List.filter is_delivered_resume t.

(** The resume notices handed to the mail service, delivered or not. *)
Definition is_resume (e : Event) : bool :=
  match e with EvSend (ResumeMail _ _ _ _) _ => true | _ => false end.

Definition resume_mails (t : list Event) : list Event := List.filter is_resume t.

(** The store after the commands of a trace: only a [SET] or a [DEL] that
    went through changes it. *)
Fixpoint replay (evs : list Event) (st : gmap string string) : gmap string string :=
  match evs with
  | [] => st
  | EvRedis (Set_ k v) true :: rest => replay rest (<[k := v]> st)
  | EvRedis (Del k) true :: rest => replay rest (delete k st)
  | _ :: rest => replay rest st
  end.

(** The precipitation check under the [catch] of the handler: what a run
    does once the snooze block lets it through. *)
Definition checkRun (fmt : NumberFormat) (env : EnvVars) (s : Settings) (o : Oracle)
    (redisUrl locationKey : string) : M Response :=
  try_catch (precipitationCheck fmt env s o redisUrl locationKey) internalError.

(** An oracle with another answer for the Redis calls of [getSnoozeState]. *)
Definition with_get_fault (f : option nat) (o : Oracle) : Oracle :=
  {| now_status := now_status o; now_expiry := now_expiry o; now_snooze := now_snooze o;
     startDateStr := startDateStr o; endDateStr := endDateStr o;
     get_fault := f; has_fault := has_fault o; mark_fault := mark_fault o;
     clear_fault := clear_fault o; set_fault := set_fault o;
     resume_result := resume_result o; alert_result := alert_result o;
     weather := weather o |}.

(** What a run added to the trace. *)
Definition new_events (w w' : World) : list Event :=
  drop (length (trace w)) (trace w').

(** An oracle with another answer for the Redis calls of [clearSnooze]. *)
Definition with_clear_fault (f : option nat) (o : Oracle) : Oracle :=
  {| now_status := now_status o; now_expiry := now_expiry o; now_snooze := now_snooze o;
     startDateStr := startDateStr o; endDateStr := endDateStr o;
     get_fault := get_fault o; has_fault := has_fault o; mark_fault := mark_fault o;
     clear_fault := f; set_fault := set_fault o;
     resume_result := resume_result o; alert_result := alert_result o;
     weather := weather o |}.

(** An oracle with another answer for the Redis calls of
    [hasResumeEmailBeenSent]. *)
Definition with_has_fault (f : option nat) (o : Oracle) : Oracle :=
  {| now_status := now_status o; now_expiry := now_expiry o; now_snooze := now_snooze o;
     startDateStr := startDateStr o; endDateStr := endDateStr o;
     get_fault := get_fault o; has_fault := f; mark_fault := mark_fault o;
     clear_fault := clear_fault o; set_fault := set_fault o;
     resume_result := resume_result o; alert_result := alert_result o;
     weather := weather o |}.

(** The sample environment with the sender address unset. *)
Definition sample_env_no_sender : EnvVars := {|
  RESEND_API_KEY := "re_key";
  ALERT_EMAIL := "owner@example.org";
  SENDER_EMAIL := EmptyString;
  db_REDIS_URL := "redis://db"
|}.

(** An oracle with another answer of the weather service. *)
Definition with_weather (wx : FetchOutcome) (o : Oracle) : Oracle :=
  {| now_status := now_status o; now_expiry := now_expiry o; now_snooze := now_snooze o;
     startDateStr := startDateStr o; endDateStr := endDateStr o;
     get_fault := get_fault o; has_fault := has_fault o; mark_fault := mark_fault o;
     clear_fault := clear_fault o; set_fault := set_fault o;
     resume_result := resume_result o; alert_result := alert_result o;
     weather := wx |}.

(** The two shapes of a response: status 200 with [success: true] and no
    [error] field, or status 500 with an [error] message and no [success]
    field. *)
Definition success_response (r : Response) : Prop :=
  status r = 200 /\ field "success" (body r) = Some (JBool true) /\
  field "error" (body r) = None.

Definition error_response (r : Response) : Prop :=
  status r = 500 /\ field "success" (body r) = None /\
  exists msg, field "error" (body r) = Some (JStr msg).

(** The events of one awaited Redis helper: Redis commands and
    [console.error] lines only. *)
Definition is_quiet (e : Event) : bool :=
  match e with
  | EvRedis _ _ | EvError _ => true
  | _ => false
  end.

(** The world a run leaves behind, and its response. *)
Definition response_of {A} (r : Result A * World) : Result A := fst r.
Definition world_of {A} (r : Result A * World) : World := snd r.

(** ** Sample runs

    Concrete inputs for the examples: the default settings (Oakland,
    threshold 0.5 in, medium band 0.5 to 1.0 in for 2 weeks, high band from
    1.0 in for 3 weeks), a Redis URL, and an oracle built from the clock
    reading, the daily precipitation in millimetres and the answers of the
    mail service and of Redis. *)

(** [toFixed] at the default coordinates. *)
Definition toFixed_sample (x : float) (digits : nat) : string :=
  if (x =? 37.8044)%float then "37.8044"
  else if (x =? -122.2708)%float then "-122.2708"
  else "0.0000".

Definition sample_key : string := "37.8044,-122.2708".

(** Digits for the numbers [numberToString] does not compute. The sample
    runs do not depend on them. *)
Definition sample_format : NumberFormat := {|
  fractionDigits := fun _ => "5";
  largeForm := fun _ => "1e+21";
  tinyForm := fun _ => "1e-7"
|}.

(** The alert mail of one handler as the other would have written it:
    the same mail with the other sign in the location line. *)
Definition with_degree (d : string) (e : Event) : Event :=
  match e with
  | EvSend (AlertMail from to _ lat lon start_ end_ total threshold) err =>
      EvSend (AlertMail from to d lat lon start_ end_ total threshold) err
  | _ => e
  end.

Definition sample_env : EnvVars := {|
  RESEND_API_KEY := "re_key";
  ALERT_EMAIL := "owner@example.org";
  SENDER_EMAIL := "alerts@example.org";
  db_REDIS_URL := "redis://db"
|}.

(** The same environment without a Redis URL. *)
Definition sample_env_no_store : EnvVars := {|
  RESEND_API_KEY := "re_key";
  ALERT_EMAIL := "owner@example.org";
  SENDER_EMAIL := "alerts@example.org";
  db_REDIS_URL := EmptyString
|}.

Definition sample_oracle (now : Z) (mm : list float) (resume alert : option string)
    (getf setf : option nat) : Oracle := {|
  now_status := now; now_expiry := now; now_snooze := now;
  startDateStr := "2025-01-01"; endDateStr := "2025-01-08";
  get_fault := getf; has_fault := None; mark_fault := None; clear_fault := None;
  set_fault := setf;
  resume_result := resume; alert_result := alert;
  weather := FetchReturns (Some [{| daily := Some (Some mm) |}])
|}.

(** The default settings with a medium tier of 20000000 weeks. *)
Definition far_settings : Settings := {|
  latitude := 37.8044;
  longitude := -122.2708;
  thresholdInches := 0.5;
  snoozeMediumMin := 0.5;
  snoozeMediumMax := 1.0;
  snoozeMediumWeeks := 20000000%float;
  snoozeHighMin := 1.0;
  snoozeHighWeeks := 3%float
|}.

Definition world_with (st : gmap string string) : World :=
  {| redis := st; fuse := None; trace := [] |}.

(** * Properties *)

Section Properties.

Variable fmt : NumberFormat.

(** ** Numbers and keys *)

Lemma digit_prefix_string_of_uint d :
  digit_prefix (NilEmpty.string_of_uint d) = NilEmpty.string_of_uint d.
Proof. induction d; simpl; rewrite ?IHd; reflexivity. Qed.

Lemma parse_digits_string_of_uint d :
  d <> Decimal.Nil ->
  parse_digits (NilEmpty.string_of_uint d) = Num (Z.of_uint d).
Proof.
  intros Hd. unfold parse_digits. rewrite digit_prefix_string_of_uint.
  rewrite NilEmpty.usu. destruct d; simpl; congruence || reflexivity.
Qed.

Lemma parseInt_string_of_uint d :
  d <> Decimal.Nil ->
  parseInt (NilEmpty.string_of_uint d) = Num (Z.of_uint d).
Proof.
  intros Hd. rewrite <- (parse_digits_string_of_uint d Hd).
  destruct d; try congruence; reflexivity.
Qed.

Lemma of_uint_to_uint p : Z.of_uint (Pos.to_uint p) = Z.pos p.
Proof. exact (DecimalZ.of_to (Z.pos p)). Qed.

(** [parseInt] reads back what [toString] printed. *)
Lemma string_of_uint_nonnil d :
  d <> Decimal.Nil -> NilZero.string_of_uint d = NilEmpty.string_of_uint d.
Proof. destruct d; simpl; congruence. Qed.

Lemma parseInt_toString z : parseInt (toString z) = Num z.
Proof.
  unfold toString. destruct z as [|p|p]; unfold Z.to_int, NilZero.string_of_int.
  - reflexivity.
  - pose proof (Unsigned.to_uint_nonnil p) as Hp.
    rewrite string_of_uint_nonnil by assumption.
    rewrite parseInt_string_of_uint by assumption. now rewrite of_uint_to_uint.
  - pose proof (Unsigned.to_uint_nonnil p) as Hp.
    rewrite string_of_uint_nonnil by assumption.
    change (parseInt (String "-" (NilEmpty.string_of_uint (Pos.to_uint p))))
      with (js_neg (parse_digits (NilEmpty.string_of_uint (Pos.to_uint p)))).
    rewrite parse_digits_string_of_uint by assumption. now rewrite of_uint_to_uint.
Qed.

Lemma truthy_toString z : truthy (toString z) = true.
Proof.
  unfold toString. destruct z as [|p|p]; simpl; try reflexivity.
  pose proof (Unsigned.to_uint_nonnil p) as Hp.
  destruct (Pos.to_uint p); simpl; congruence.
Qed.

Lemma magnitude_pos m e n d : magnitude m e = (n, d) -> 0 < n /\ 0 < d.
Proof.
  unfold magnitude. destruct (0 <=? e) eqn:He; intros [= <- <-].
  - apply Z.leb_le in He. split; [|lia].
    apply Z.mul_pos_pos; [lia|]. apply Z.pow_pos_nonneg; lia.
  - apply Z.leb_gt in He. split; [lia|]. apply Z.pow_pos_nonneg; lia.
Qed.

(** A whole number below 2^53 is printed with its decimal digits,
    whatever the format of the other numbers. *)
Lemma numberToString_int x z :
  intValue x = Some z -> Z.abs z < 2 ^ 53 -> numberToString fmt x = toString z.
Proof.
  unfold intValue, numberToString.
  destruct (Prim2SF x) as [s|s| |s m e]; try discriminate.
  - intros [= <-] _. reflexivity.
  - destruct (magnitude m e) as [n d] eqn:Hm. apply magnitude_pos in Hm as [Hn Hd].
    destruct (n mod d =? 0) eqn:Hmod; [|discriminate].
    intros [= <-] Hz. apply Z.eqb_eq in Hmod.
    assert (Hnd : n = d * (n / d)) by (rewrite (Z.div_mod n d) at 1; lia).
    assert (0 <= n / d) by (apply Z.div_pos; lia).
    replace (2 ^ 53 * d <=? n) with false; [reflexivity|].
    symmetry. apply Z.leb_gt. destruct s; nia.
Qed.

(** What [getSnoozeState] makes of a whole-number expiry that
    [setSnooze] printed. *)
Lemma stateOf_numberToString x z now :
  intValue x = Some z -> Z.abs z < 2 ^ 53 ->
  stateOf (Some (numberToString fmt x)) now =
  {| isSnoozed := now <? z; expiresAt := Some (Num z) |}.
Proof.
  intros Hx Hz. rewrite (numberToString_int x z Hx Hz). unfold stateOf.
  now rewrite truthy_toString, parseInt_toString.
Qed.

Lemma length_append (s1 s2 : string) :
  String.length (s1 +:+ s2) = (String.length s1 + String.length s2)%nat.
Proof.
  induction s1 as [|a s1 IH]; [reflexivity|].
  change (String a s1 +:+ s2) with (String a (s1 +:+ s2)).
  simpl. now rewrite IH.
Qed.

(** The two alert templates do not write the same sign. *)
Lemma degree_snooze_neq_plain : degree_snooze <> degree_plain.
Proof. intros H. vm_compute in H. discriminate H. Qed.

(** The expiry and the resume-sent flag live under different keys. *)
Lemma snoozeKey_neq_resumeSentKey k : snoozeKey k <> resumeSentKey k.
Proof.
  unfold snoozeKey, resumeSentKey. intros H.
  apply (f_equal String.length) in H.
  rewrite !length_append in H. simpl in H. lia.
Qed.

(** ** Comparisons of floats *)

Lemma SFcompare_antisym x y :
  SFcompare y x = option_map CompOpp (SFcompare x y).
Proof.
  destruct x as [ [|] | [|] | | [|] m e ], y as [ [|] | [|] | | [|] m' e' ];
    simpl; try reflexivity.
  all: rewrite (Z.compare_antisym e e'); destruct (e ?= e'); simpl; try reflexivity.
  all: rewrite (Pos.compare_cont_antisym m m' Eq); simpl;
    rewrite ?CompOpp_involutive; reflexivity.
Qed.

(** [x <= y] excludes [y < x]. *)
Lemma float_leb_not_ltb (x y : float) :
  (x <=? y)%float = true -> (y <? x)%float = false.
Proof.
  rewrite leb_spec, ltb_spec. unfold SFleb, SFltb.
  rewrite (SFcompare_antisym (Prim2SF x)).
  destruct (SFcompare (Prim2SF x) (Prim2SF y)) as [[| |]|]; simpl; congruence.
Qed.

(** Equal numbers are below each other; NaN equals nothing. *)
Lemma float_eqb_leb (x y : float) :
  (x =? y)%float = true -> (y <=? x)%float = true /\ (x <=? y)%float = true.
Proof.
  rewrite FloatAxioms.eqb_spec, !leb_spec. unfold SFeqb, SFleb.
  rewrite (SFcompare_antisym (Prim2SF x)).
  destruct (SFcompare (Prim2SF x) (Prim2SF y)) as [[| |]|]; simpl; intuition congruence.
Qed.

Lemma SFcompare_Eq_inv x y :
  SFcompare x y = Some Eq ->
  x = y \/ (exists a b, x = S754_zero a /\ y = S754_zero b).
Proof.
  destruct x as [a|a| |a m e], y as [b|b| |b m' e']; simpl; try discriminate;
    try (destruct a; discriminate); try (destruct b; discriminate).
  - intros _. right. eauto.
  - destruct a, b; intros H; try discriminate H; left; reflexivity.
  - destruct a, b; try discriminate.
    all: destruct (e ?= e') eqn:He; try discriminate.
    all: apply Z.compare_eq in He; subst e'.
    all: destruct (Pos.compare_cont Eq m m') eqn:Hc; try discriminate.
    all: apply Pos.compare_eq in Hc; subst m'; intros _; left; reflexivity.
Qed.

Lemma float_eqb_eqb_leb (x y z : float) :
  (x =? y)%float = true -> (y =? z)%float = true -> (x <=? z)%float = true.
Proof.
  rewrite !FloatAxioms.eqb_spec, leb_spec. unfold SFeqb, SFleb.
  destruct (SFcompare (Prim2SF x) (Prim2SF y)) as [[| |]|] eqn:Hxy; try discriminate.
  destruct (SFcompare (Prim2SF y) (Prim2SF z)) as [[| |]|] eqn:Hyz; try discriminate.
  intros _ _.
  apply SFcompare_Eq_inv in Hxy. destruct Hxy as [->|(a & b & -> & Hy)].
  - now rewrite Hyz.
  - rewrite Hy in Hyz. apply SFcompare_Eq_inv in Hyz.
    destruct Hyz as [<-|(a' & b' & _ & ->)]; reflexivity.
Qed.

(** ** Running the helpers *)

Arguments totalInches : simpl never.
Arguments selectTier : simpl never.

Ltac run :=
  unfold try_catch, bind, ret, throw, arm, console_error, emails_send, fetchWeatherApi,
    emit, getRedisClient, client_get, client_set, client_del, client_quit, redis_call;
  simpl; rewrite <- ?app_assoc; simpl.

Lemma getSnoozeState_ok now url key w :
  getSnoozeState None now url key w =
  (Ok (stateOf (redis w !! snoozeKey key) now),
   {| redis := redis w; fuse := None;
      trace := trace w ++ [EvRedis (Connect url) true; EvRedis (Get (snoozeKey key)) true;
                           EvRedis Quit true] |}).
Proof.
  unfold getSnoozeState, stateOf, absent. run.
  destruct (redis w !! snoozeKey key) as [s|]; [destruct (truthy s)|]; reflexivity.
Qed.

(** A rejected Redis call in [getSnoozeState] is caught: the helper
    answers "not snoozed, no expiry" and the store is as before. *)
Lemma getSnoozeState_fault k now url key w :
  (k < 3)%nat ->
  exists evs,
    getSnoozeState (Some k) now url key w =
      (Ok absent, {| redis := redis w; fuse := None; trace := trace w ++ evs |})
    /\ mails evs = [] /\ fetches evs = [].
Proof.
  intros Hk. unfold getSnoozeState, absent.
  destruct k as [|[|[|k]]]; [| | |lia]; run; eexists; repeat split; reflexivity.
Qed.

(** [setSnooze] with Redis reachable: the expiry is written, then the
    log line is built; when its date is out of range the helper raises
    with the expiry already in the store. *)
Lemma setSnooze_ok now url key weeks w :
  validTime (expiryOf now weeks * 1000) = true ->
  setSnooze fmt None now url key weeks w =
  (Ok tt,
   {| redis := <[snoozeKey key := numberToString fmt (expiryOf now weeks)]> (redis w);
      fuse := None;
      trace := trace w ++
        [EvRedis (Connect url) true;
         EvRedis (Set_ (snoozeKey key) (numberToString fmt (expiryOf now weeks))) true;
         EvRedis Quit true] |}).
Proof. intros Hv. unfold setSnooze, logDate. rewrite Hv. run. reflexivity. Qed.

Lemma setSnooze_invalid now url key weeks w :
  validTime (expiryOf now weeks * 1000) = false ->
  setSnooze fmt None now url key weeks w =
  (Throw "Invalid time value",
   {| redis := <[snoozeKey key := numberToString fmt (expiryOf now weeks)]> (redis w);
      fuse := None;
      trace := trace w ++
        [EvRedis (Connect url) true;
         EvRedis (Set_ (snoozeKey key) (numberToString fmt (expiryOf now weeks))) true;
         EvRedis Quit true; EvError "Error setting snooze:"] |}).
Proof. intros Hv. unfold setSnooze, logDate. rewrite Hv. run. reflexivity. Qed.

(** The store after [setSnooze]: unchanged when the connection or the
    [SET] was rejected, and with the expiry written otherwise. *)
Lemma setSnooze_store f now url key weeks w :
  redis (world_of (setSnooze fmt f now url key weeks w)) =
  match f with
  | Some 0%nat | Some 1%nat => redis w
  | _ => <[snoozeKey key := numberToString fmt (expiryOf now weeks)]> (redis w)
  end.
Proof.
  unfold setSnooze, logDate, world_of.
  destruct (validTime (expiryOf now weeks * 1000));
    destruct f as [[|[|[|n]]]|]; run; reflexivity.
Qed.

Lemma clearSnooze_ok url key w :
  clearSnooze None url key w =
  (Ok tt,
   {| redis := delete (resumeSentKey key) (delete (snoozeKey key) (redis w));
      fuse := None;
      trace := trace w ++
        [EvRedis (Connect url) true; EvRedis (Del (snoozeKey key)) true;
         EvRedis (Del (resumeSentKey key)) true; EvRedis Quit true] |}).
Proof. unfold clearSnooze. run. reflexivity. Qed.

Lemma hasResumeEmailBeenSent_ok url key w :
  hasResumeEmailBeenSent None url key w =
  (Ok (strict_eq (redis w !! resumeSentKey key) "1"),
   {| redis := redis w; fuse := None;
      trace := trace w ++
        [EvRedis (Connect url) true; EvRedis (Get (resumeSentKey key)) true;
         EvRedis Quit true] |}).
Proof. unfold hasResumeEmailBeenSent. run. reflexivity. Qed.

(** ** The snooze record: writing and reading back *)

(** C6, as the code has it. Round trip: when the expiry that
    [setSnooze] computes, [now + weeks * 7 * 24 * 60 * 60] in floating
    point, is a whole number of seconds [e] below 2^53, later than [now]
    and inside the range of [Date], [setSnooze] returns and reading the
    state at the same time [now] finds the location snoozed, with the
    expiry [e]. *)
Theorem snooze_round_trip url key weeks now e w :
  intValue (expiryOf now weeks) = Some e ->
  Z.abs e < 2 ^ 53 ->
  now < e ->
  validTime (expiryOf now weeks * 1000) = true ->
  exists w1 st w2,
    setSnooze fmt None now url key weeks w = (Ok tt, w1) /\
    getSnoozeState None now url key w1 = (Ok st, w2) /\
    snoozeStatus st now = SNOOZED /\
    isSnoozed st = true /\
    expiresAt st = Some (Num e).
Proof.
  intros He Hlt Hnow Hv. rewrite (setSnooze_ok _ _ _ _ _ Hv). eexists. eexists. eexists.
  split; [reflexivity|]. rewrite getSnoozeState_ok. split; [reflexivity|].
  cbn [redis]. rewrite lookup_insert_eq.
  rewrite (stateOf_numberToString _ _ _ He Hlt). unfold snoozeStatus.
  cbn [isSnoozed expiresAt].
  replace (now <? e) with true by (symmetry; apply Z.ltb_lt; lia).
  repeat split.
Qed.

(** C2, as the code has it. [setSnooze] writes the expiry
    [now + weeks * 7 * 24 * 60 * 60], as [toString] prints it, under the
    snooze key, whatever was there, and touches no other key: the
    resume-sent flag keeps its value. A whole-number expiry below 2^53 is
    read back as that number. The helper returns when the expiry is
    inside the range of [Date] and raises otherwise, with the expiry
    written in both cases. *)
Theorem setSnooze_overwrites_expiry_only url key weeks now w :
  let w' := world_of (setSnooze fmt None now url key weeks w) in
  redis w' = <[snoozeKey key := numberToString fmt (expiryOf now weeks)]> (redis w) /\
  redis w' !! snoozeKey key = Some (numberToString fmt (expiryOf now weeks)) /\
  (forall e, intValue (expiryOf now weeks) = Some e -> Z.abs e < 2 ^ 53 ->
     expiresAt (stateOf (redis w' !! snoozeKey key) now) = Some (Num e)) /\
  (forall k, k <> snoozeKey key -> redis w' !! k = redis w !! k) /\
  redis w' !! resumeSentKey key = redis w !! resumeSentKey key /\
  response_of (hasResumeEmailBeenSent None url key w') =
    response_of (hasResumeEmailBeenSent None url key w) /\
  response_of (setSnooze fmt None now url key weeks w) =
    (if validTime (expiryOf now weeks * 1000) then Ok tt else Throw "Invalid time value").
Proof.
  pose proof (setSnooze_store None now url key weeks w) as Hstore.
  cbv zeta. rewrite Hstore.
  assert (Hflag :
    <[snoozeKey key := numberToString fmt (expiryOf now weeks)]> (redis w) !! resumeSentKey key
    = redis w !! resumeSentKey key)
    by (apply lookup_insert_ne, snoozeKey_neq_resumeSentKey).
  split; [reflexivity|]. split; [apply lookup_insert_eq|].
  split; [|split; [|split; [|split]]].
  - intros e He Hlt. rewrite lookup_insert_eq.
    now rewrite (stateOf_numberToString _ _ _ He Hlt).
  - intros k Hk. now apply lookup_insert_ne.
  - exact Hflag.
  - rewrite !hasResumeEmailBeenSent_ok. unfold response_of. cbn [fst redis].
    now rewrite Hstore, Hflag.
  - destruct (validTime (expiryOf now weeks * 1000)) eqn:Hv;
      [rewrite (setSnooze_ok _ _ _ _ _ Hv)|rewrite (setSnooze_invalid _ _ _ _ _ Hv)];
      reflexivity.
Qed.

(** ** Runs of the handler *)

Lemma filter_snoc {A} (f : A -> bool) (l l' : list A) :
  List.filter f l' = [] -> List.filter f (l ++ l') = List.filter f l.
Proof. intros H. now rewrite List.filter_app, H, app_nil_r. Qed.

Lemma new_events_app w w' evs : trace w' = trace w ++ evs -> new_events w w' = evs.
Proof. intros H. unfold new_events. rewrite H. apply drop_app_length. Qed.

(** [getSnoozeState] never raises and never changes the store; it
    answers either "absent" or what the stored value says. *)
Lemma getSnoozeState_total f now url key w :
  exists st w' evs,
    getSnoozeState f now url key w = (Ok st, w') /\
    redis w' = redis w /\
    trace w' = trace w ++ evs /\
    mails evs = [] /\ fetches evs = [] /\
    (st = absent \/ st = stateOf (redis w !! snoozeKey key) now).
Proof.
  unfold getSnoozeState, stateOf, absent.
  destruct f as [[|[|[|n]]]|]; run.
  1-3: do 3 eexists; repeat split; auto.
  all: destruct (redis w !! snoozeKey key) as [v|]; [destruct (truthy v)|];
    do 3 eexists; repeat split; auto.
Qed.

Lemma snoozeCheck_absent env s o url key w w1 :
  getSnoozeState (get_fault o) (now_status o) url key w = (Ok absent, w1) ->
  snoozeCheck env s o url key w = (Ok None, w1).
Proof. intros H. unfold snoozeCheck, bind. rewrite H. reflexivity. Qed.

Ltac frame_case :=
  do 2 eexists; split; [|intros w; eexists; run; repeat split; reflexivity]; reflexivity.

(** The precipitation check does not look at the world it starts from:
    its response and the events it adds depend on the configuration and
    on the answers of the outside only, it sends no resume notice, and
    the store it leaves is the one its Redis commands produce. *)
Lemma checkRun_frame env s o url key :
  exists r evs,
    resume_mails evs = [] /\
    forall w,
      exists w', checkRun fmt env s o url key w = (Ok r, w') /\
        trace w' = trace w ++ evs /\
        redis w' = replay evs (redis w).
Proof.
  unfold checkRun, precipitationCheck, internalError.
  destruct (weather o) as [msg|[[|[[[vs|]|]] rest]|]].
  1, 2, 4, 5, 6: frame_case.
  run. destruct (thresholdInches s <? totalInches vs)%float; [|frame_case].
  destruct (alert_result o) as [err|]; [frame_case|].
  destruct (truthy url); [|frame_case].
  destruct (selectTier s (totalInches vs)) as [t|]; [|frame_case].
  simpl. unfold setSnooze, logDate.
  destruct (validTime (expiryOf (now_snooze o) (tierWeeks s t) * 1000));
    destruct (set_fault o) as [[|[|[|n]]]|]; frame_case.
Qed.

Lemma checkRun_with_get_fault env s o f url key :
  checkRun fmt env s (with_get_fault f o) url key = checkRun fmt env s o url key.
Proof. reflexivity. Qed.

Lemma missingVars_nil env :
  missingVars env = [] ->
  truthy (RESEND_API_KEY env) = true /\ truthy (ALERT_EMAIL env) = true /\
  truthy (SENDER_EMAIL env) = true.
Proof.
  unfold missingVars.
  destruct (truthy (RESEND_API_KEY env)), (truthy (ALERT_EMAIL env)),
    (truthy (SENDER_EMAIL env)); simpl; intros H; try discriminate H; auto.
Qed.

Ltac events := unfold new_events; cbn [trace]; rewrite ?drop_app_length.

(** ** The alert decision *)

(** C5. Given a precipitation total, both handlers send the alert mail
    exactly when the total is strictly above the threshold. When the
    total is at most the threshold, whatever the tier settings, the
    response is "No alert needed", the only event is the weather request
    and the store is untouched. *)
Theorem alert_iff_above_threshold env s o url key vs rest w :
  weather o = FetchReturns (Some ({| daily := Some (Some vs) |} :: rest)) ->
  missingVars env = [] ->
  let total := totalInches vs in
  let fetch := EvFetch (latitude s) (longitude s) (startDateStr o) (endDateStr o) in
  let alertMail :=
    EvSend (AlertMail (SENDER_EMAIL env) (ALERT_EMAIL env) degree_snooze (latitude s) (longitude s)
              (startDateStr o) (endDateStr o) total (thresholdInches s))
           (alert_result o) in
  let alertMailPlain :=
    EvSend (AlertMail (SENDER_EMAIL env) (ALERT_EMAIL env) degree_plain (latitude s) (longitude s)
              (startDateStr o) (endDateStr o) total (thresholdInches s))
           (alert_result o) in
  let noAlert :=
    Response_json 200
      [("success", JBool true); ("message", JStr "No alert needed");
       ("precipitation", JNum total); ("threshold", JNum (thresholdInches s));
       ("location", location_json s); ("dateRange", dateRange_json o)] in
  exists r w' rp wp,
    precipitationCheck fmt env s o url key w = (Ok r, w') /\
    Plain.handler env s o w = (Ok rp, wp) /\
    mails (new_events w w') =
      (if (thresholdInches s <? total)%float then [alertMail] else []) /\
    mails (new_events w wp) =
      (if (thresholdInches s <? total)%float then [alertMailPlain] else []) /\
    (mails (new_events w w') <> [] <-> (thresholdInches s <? total)%float = true) /\
    ((total <=? thresholdInches s)%float = true ->
       r = noAlert /\ rp = noAlert /\
       new_events w w' = [fetch] /\ new_events w wp = [fetch] /\
       redis w' = redis w /\ redis wp = redis w).
Proof.
  intros Hw Hvars total fetch alertMail alertMailPlain noAlert.
  destruct (missingVars_nil env Hvars) as (HK & HA & HS).
  pose proof (float_leb_not_ltb total (thresholdInches s)) as Hstrict.
  unfold Plain.handler, precipitationCheck. rewrite Hw, HK, HA, HS. run.
  fold total. destruct (thresholdInches s <? total)%float eqn:Hthr.
  - assert (Hle : (total <=? thresholdInches s)%float = true -> False)
      by (intros H; apply Hstrict in H; discriminate H).
    subst alertMail alertMailPlain. destruct (alert_result o) as [err|]; run.
    { do 4 eexists. repeat split; try reflexivity; events; simpl; try easy. }
    destruct (truthy url); [destruct (selectTier s total) as [t|]|]; run.
    2, 3: do 4 eexists; repeat split; try reflexivity; events; simpl; try easy.
    unfold setSnooze, logDate.
    destruct (validTime (expiryOf (now_snooze o) (tierWeeks s t) * 1000));
      destruct (set_fault o) as [[|[|[|n]]]|]; run.
    all: do 4 eexists; repeat split; try reflexivity; events; simpl; try easy.
  - do 4 eexists. repeat split; try reflexivity; events; simpl; try easy.
Qed.

(** ** The snooze tier *)

(** C4. A total equal to the bound shared by the two bands (the lower
    bound of the high band, which is also the upper bound of the medium
    band) passes the upper test of the medium band too, and resolves to
    the high tier, not the medium one: the high test comes first. An
    alert with such a total, delivered and with a Redis URL set, snoozes
    for the weeks of the high tier (the expiry being inside the range of
    [Date]). For every total the tier is unique:
    it is the high one exactly when the high test holds, and the medium
    one only when the high test fails. *)
Theorem boundary_total_selects_high s total :
  (total =? snoozeHighMin s)%float = true ->
  (snoozeHighMin s =? snoozeMediumMax s)%float = true ->
  selectTier s total = Some High /\
  selectTier s total <> Some Medium /\
  (total <=? snoozeMediumMax s)%float = true /\
  (forall env o url key vs rest w,
     weather o = FetchReturns (Some ({| daily := Some (Some vs) |} :: rest)) ->
     totalInches vs = total ->
     (thresholdInches s <? total)%float = true ->
     alert_result o = None -> truthy url = true -> set_fault o = None ->
     validTime (expiryOf (now_snooze o) (snoozeHighWeeks s) * 1000) = true ->
     exists w',
       precipitationCheck fmt env s o url key w =
         (Ok (Response_json 200
                [("success", JBool true); ("message", JStr "Alert sent");
                 ("precipitation", JNum total); ("threshold", JNum (thresholdInches s));
                 ("location", location_json s); ("dateRange", dateRange_json o);
                 ("snoozed", JBool true); ("snoozeWeeks", JNum (snoozeHighWeeks s))]), w') /\
       redis w' =
         <[snoozeKey key := numberToString fmt (expiryOf (now_snooze o) (snoozeHighWeeks s))]>
           (redis w)) /\
  (forall x, selectTier s x = Some Medium -> (snoozeHighMin s <=? x)%float = false) /\
  (forall x, selectTier s x = Some High <-> (snoozeHighMin s <=? x)%float = true) /\
  (forall x t1 t2, selectTier s x = Some t1 -> selectTier s x = Some t2 -> t1 = t2).
Proof.
  intros Heq Hshared.
  destruct (float_eqb_leb _ _ Heq) as [Hhigh _].
  assert (Hsel : selectTier s total = Some High) by (unfold selectTier; now rewrite Hhigh).
  split; [exact Hsel|]. split; [congruence|].
  split; [exact (float_eqb_eqb_leb _ _ _ Heq Hshared)|].
  split.
  { intros env o url key vs rest w Hw Htot Hthr Hmail Hurl Hset Hv.
    unfold precipitationCheck. rewrite Hw. run.
    rewrite Htot, Hthr, Hmail, Hurl, Hsel, Hset. run.
    unfold setSnooze, logDate. rewrite Hv. run.
    eexists. split; reflexivity. }
  split; [|split].
  - intros x. unfold selectTier.
    destruct (snoozeHighMin s <=? x)%float; [discriminate|reflexivity].
  - intros x. unfold selectTier.
    destruct (snoozeHighMin s <=? x)%float; [tauto|].
    destruct ((snoozeMediumMin s <=? x)%float && (x <=? snoozeMediumMax s)%float);
      split; discriminate.
  - congruence.
Qed.

(** ** The snooze after an alert *)

Ltac leaf :=
  do 2 eexists; split; [reflexivity|]; events; cbn [redis];
  repeat match goal with
  | |- _ /\ _ => split
  | |- _ <-> _ => split
  end;
  intros; simpl in *;
  repeat match goal with
  | H : _ /\ _ |- _ => destruct H
  end;
  try simplify_eq; try congruence; try easy; auto.

(** C9. When the threshold is exceeded and the mail service answers the
    alert mail with an error, the run answers "Failed to send alert
    email" with status 500, issues no Redis command and leaves the store
    as it was. Redis commands are issued after the alert mail exactly
    when the mail was delivered, a Redis URL is set and a tier matched,
    and then (the Redis calls going through and the expiry being inside
    the range of [Date]) they are the [SET] of [setSnooze] for the weeks
    of that tier. *)
Theorem snooze_only_after_confirmed_alert env s o url key vs rest w :
  weather o = FetchReturns (Some ({| daily := Some (Some vs) |} :: rest)) ->
  (thresholdInches s <? totalInches vs)%float = true ->
  let total := totalInches vs in
  let fetch := EvFetch (latitude s) (longitude s) (startDateStr o) (endDateStr o) in
  let alertMail :=
    EvSend (AlertMail (SENDER_EMAIL env) (ALERT_EMAIL env) degree_snooze (latitude s) (longitude s)
              (startDateStr o) (endDateStr o) total (thresholdInches s))
           (alert_result o) in
  exists r w',
    precipitationCheck fmt env s o url key w = (Ok r, w') /\
    (forall err, alert_result o = Some err ->
       r = Response_json 500
             [("error", JStr "Failed to send alert email"); ("details", JStr err)] /\
       new_events w w' = [fetch; alertMail; EvError "Failed to send email:"] /\
       redis w' = redis w) /\
    (redis_cmds (new_events w w') <> [] <->
       alert_result o = None /\ truthy url = true /\ selectTier s total <> None) /\
    (redis w' <> redis w ->
       alert_result o = None /\ truthy url = true /\ selectTier s total <> None) /\
    (forall t,
       alert_result o = None -> truthy url = true -> selectTier s total = Some t ->
       set_fault o = None ->
       validTime (expiryOf (now_snooze o) (tierWeeks s t) * 1000) = true ->
       new_events w w' =
         [fetch; alertMail; EvRedis (Connect url) true;
          EvRedis (Set_ (snoozeKey key)
                     (numberToString fmt (expiryOf (now_snooze o) (tierWeeks s t)))) true;
          EvRedis Quit true] /\
       redis w' =
         <[snoozeKey key := numberToString fmt (expiryOf (now_snooze o) (tierWeeks s t))]>
           (redis w)).
Proof.
  intros Hw Hthr total fetch alertMail.
  unfold precipitationCheck. rewrite Hw. run. fold total in Hthr |- *. rewrite Hthr.
  subst alertMail. destruct (alert_result o) as [err|]; run; [leaf|].
  destruct (truthy url); [destruct (selectTier s total) as [t|]|]; run; [|leaf|leaf].
  unfold setSnooze, logDate.
  destruct (validTime (expiryOf (now_snooze o) (tierWeeks s t) * 1000)) eqn:Hv;
    destruct (set_fault o) as [[|[|[|n]]]|]; run; leaf.
Qed.

(** A rejected connection or [SET] in [setSnooze] leaves the store as it
    was, and the response of the run is the one of a successful snooze. *)
Lemma set_failure_hidden env s o url key vs rest t k w :
  weather o = FetchReturns (Some ({| daily := Some (Some vs) |} :: rest)) ->
  (thresholdInches s <? totalInches vs)%float = true ->
  alert_result o = None -> truthy url = true ->
  selectTier s (totalInches vs) = Some t ->
  set_fault o = Some k -> (k < 2)%nat ->
  exists w',
    precipitationCheck fmt env s o url key w =
      (Ok (Response_json 200
             [("success", JBool true); ("message", JStr "Alert sent");
              ("precipitation", JNum (totalInches vs));
              ("threshold", JNum (thresholdInches s));
              ("location", location_json s); ("dateRange", dateRange_json o);
              ("snoozed", JBool true); ("snoozeWeeks", JNum (tierWeeks s t))]), w') /\
    redis w' = redis w.
Proof.
  intros Hw Hthr Hmail Hurl Hsel Hset Hk.
  unfold precipitationCheck. rewrite Hw. run. rewrite Hthr, Hmail, Hurl, Hsel, Hset. run.
  unfold setSnooze. destruct k as [|[|k]]; [| |lia]; run; eexists; split; reflexivity.
Qed.

Section HandlerProperties.

Variable toFixed : float -> nat -> string.

#[local] Abbreviation locKey s := (getLocationKey toFixed (latitude s) (longitude s)).

Lemma handler_continue env s o w w1 :
  missingVars env = [] ->
  truthy (db_REDIS_URL env) = true ->
  snoozeCheck env s o (db_REDIS_URL env) (locKey s) w = (Ok None, w1) ->
  handler toFixed fmt env s o w = checkRun fmt env s o (db_REDIS_URL env) (locKey s) w1.
Proof.
  intros Hvars Hurl H. unfold handler, checkRun, try_catch, bind.
  rewrite Hvars, Hurl. cbn [length Nat.ltb Nat.leb]. rewrite H. reflexivity.
Qed.

Lemma handler_no_store env s o w :
  missingVars env = [] ->
  truthy (db_REDIS_URL env) = false ->
  handler toFixed fmt env s o w = checkRun fmt env s o (db_REDIS_URL env) (locKey s) w.
Proof.
  intros Hvars Hurl. unfold handler, checkRun, try_catch, bind.
  rewrite Hvars, Hurl. reflexivity.
Qed.

(** C7, as the code has it. A run that finds a record whose expiry lies
    strictly in the future performs no precipitation evaluation: no
    weather request, no mail, no change to the store. When the expiry is
    inside the range of [Date] (at most 8.64e15 ms from the epoch) the run
    returns the skip response carrying that expiry, after the three Redis
    calls of the read and nothing else. When the expiry is beyond that
    range, building the response raises and the run answers "Internal
    server error" with status 500. *)
Theorem snoozed_run_skips env s o w str e :
  missingVars env = [] ->
  truthy (db_REDIS_URL env) = true ->
  get_fault o = None ->
  redis w !! snoozeKey (locKey s) = Some str ->
  parseInt str = Num e ->
  now_status o < e ->
  let read :=
    [EvRedis (Connect (db_REDIS_URL env)) true;
     EvRedis (Get (snoozeKey (locKey s))) true; EvRedis Quit true] in
  exists r w',
    handler toFixed fmt env s o w = (Ok r, w') /\
    redis w' = redis w /\
    fetches (trace w') = fetches (trace w) /\
    mails (trace w') = mails (trace w) /\
    (Z.abs (e * 1000) <= 8640000000000000 ->
       r = Response_json 200
             [("success", JBool true); ("message", JStr "Currently snoozed");
              ("snoozed", JBool true); ("expiresAt", JIsoDate (e * 1000))] /\
       trace w' = trace w ++ read) /\
    (8640000000000000 < Z.abs (e * 1000) ->
       r = Response_json 500
             [("error", JStr "Internal server error");
              ("details", JStr "Invalid time value")] /\
       trace w' = trace w ++ read ++ [EvError "Error checking precipitation:"]).
Proof.
  intros Hvars Hurl Hfault Hrec Hparse Hfuture read.
  assert (Hstr : truthy str = true)
    by (destruct str; [discriminate Hparse | reflexivity]).
  unfold handler, snoozeCheck. rewrite Hvars, Hurl, Hfault.
  unfold try_catch, bind. cbn [length Nat.ltb Nat.leb].
  rewrite getSnoozeState_ok, Hrec. unfold stateOf. rewrite Hstr, Hparse.
  cbn [isSnoozed expiresAt js_gt times1000 toISOString].
  replace (now_status o <? e) with true by (symmetry; apply Z.ltb_lt; lia).
  destruct (Z.abs (e * 1000) <=? 8640000000000000) eqn:Hrange.
  - apply Z.leb_le in Hrange. cbn [ret]. do 2 eexists. split; [reflexivity|].
    cbn [redis trace]. split; [reflexivity|].
    split; [apply filter_snoc; reflexivity|]. split; [apply filter_snoc; reflexivity|].
    split; [intros _; split; reflexivity|]. intros Hout. lia.
  - apply Z.leb_gt in Hrange. unfold throw, internalError. run.
    do 2 eexists. split; [reflexivity|].
    cbn [redis trace]. split; [reflexivity|].
    split; [apply filter_snoc; reflexivity|]. split; [apply filter_snoc; reflexivity|].
    split; [intros Hin; lia|]. intros _. split; reflexivity.
Qed.

(** A run that finds no expiry under the snooze key, whatever happens to
    its Redis calls, answers some response and sends no resume notice. *)
Lemma active_run_no_resume env s o w :
  missingVars env = [] ->
  truthy (db_REDIS_URL env) = true ->
  redis w !! snoozeKey (locKey s) = None ->
  exists r w' evs,
    handler toFixed fmt env s o w = (Ok r, w') /\
    trace w' = trace w ++ evs /\
    resume_mails evs = [].
Proof.
  intros Hvars Hurl Hrec.
  destruct (getSnoozeState_total (get_fault o) (now_status o) (db_REDIS_URL env)
              (locKey s) w) as (st & w1 & evs1 & Hget & _ & Htr1 & Hm1 & _ & Hst).
  assert (st = absent) as -> by (destruct Hst as [->| ->]; [|rewrite Hrec]; reflexivity).
  rewrite (handler_continue env s o w w1 Hvars Hurl (snoozeCheck_absent _ _ _ _ _ _ _ Hget)).
  destruct (checkRun_frame env s o (db_REDIS_URL env) (locKey s)) as (r & evs2 & Hres & Hrun).
  destruct (Hrun w1) as (w' & Hcheck & Htr2 & _).
  exists r, w', (evs1 ++ evs2). split; [assumption|]. split.
  - now rewrite Htr2, Htr1, app_assoc.
  - unfold resume_mails in *. rewrite List.filter_app, Hres, app_nil_r.
    clear - Hm1. unfold mails in Hm1.
    induction evs1 as [|ev evs1 IH]; [reflexivity|].
    destruct ev as [c ok|m err| |]; simpl in *; try apply IH; try assumption.
    discriminate Hm1.
Qed.

(** C8. When Redis is unreachable for [getSnoozeState] (one of its three
    calls is rejected), the helper does not raise: it answers "absent"
    and leaves the store alone. The run then goes on as the run of a
    location in state ACTIVE (Redis reachable, no record) does: same
    response, and after the read the same events, one by one, with the
    same effect on the store. [getSnoozeState] raises on no input. *)
Theorem store_unreachable_fails_open env s o w w0 k :
  missingVars env = [] ->
  truthy (db_REDIS_URL env) = true ->
  get_fault o = Some k ->
  (k < 3)%nat ->
  redis w0 !! snoozeKey (locKey s) = None ->
  exists w1 r wA wB evs rest,
    getSnoozeState (Some k) (now_status o) (db_REDIS_URL env) (locKey s) w = (Ok absent, w1) /\
    redis w1 = redis w /\
    handler toFixed fmt env s o w = (Ok r, wA) /\
    handler toFixed fmt env s (with_get_fault None o) w0 = (Ok r, wB) /\
    trace wA = trace w ++ evs ++ rest /\
    mails evs = [] /\ fetches evs = [] /\
    trace wB = trace w0 ++
      [EvRedis (Connect (db_REDIS_URL env)) true;
       EvRedis (Get (snoozeKey (locKey s))) true; EvRedis Quit true] ++ rest /\
    redis wA = replay rest (redis w) /\
    redis wB = replay rest (redis w0) /\
    (forall now now',
       snoozeStatus (stateOf (redis w0 !! snoozeKey (locKey s)) now) now' = ACTIVE) /\
    (forall f now url key w2, exists st w3,
       getSnoozeState f now url key w2 = (Ok st, w3) /\ redis w3 = redis w2).
Proof.
  intros Hvars Hurl Hfault Hk Hrec.
  destruct (getSnoozeState_fault k (now_status o) (db_REDIS_URL env) (locKey s) w Hk)
    as (evs & Hget & Hmails & Hfetches).
  destruct (checkRun_frame env s o (db_REDIS_URL env) (locKey s)) as (r & rest & _ & Hrun).
  set (w1 := {| redis := redis w; fuse := None; trace := trace w ++ evs |}) in *.
  destruct (Hrun w1) as (wA & HA & HtrA & HstA).
  set (w2 := {| redis := redis w0; fuse := None;
                trace := trace w0 ++
                  [EvRedis (Connect (db_REDIS_URL env)) true;
                   EvRedis (Get (snoozeKey (locKey s))) true; EvRedis Quit true] |}).
  destruct (Hrun w2) as (wB & HB & HtrB & HstB).
  exists w1, r, wA, wB, evs, rest.
  split; [exact Hget|]. split; [reflexivity|]. split.
  { rewrite (handler_continue env s o w w1 Hvars Hurl); [exact HA|].
    apply snoozeCheck_absent. rewrite Hfault. exact Hget. }
  split.
  { rewrite (handler_continue env s (with_get_fault None o) w0 w2 Hvars Hurl).
    - rewrite checkRun_with_get_fault. exact HB.
    - apply snoozeCheck_absent. cbn [get_fault now_status with_get_fault].
      rewrite getSnoozeState_ok, Hrec. reflexivity. }
  split; [rewrite HtrA; cbn [trace w1]; now rewrite app_assoc|].
  split; [exact Hmails|]. split; [exact Hfetches|].
  split; [rewrite HtrB; cbn [trace w2]; now rewrite <- app_assoc|].
  split; [exact HstA|]. split; [exact HstB|].
  split; [intros now now'; rewrite Hrec; reflexivity|].
  intros f now url key w3.
  destruct (getSnoozeState_total f now url key w3) as (st & w4 & _ & H1 & H2 & _).
  now exists st, w4.
Qed.

(** C1, as the code has it. When the snooze has expired, the flag is not
    set and the mail service answers the resume notice with an error, the
    run does not mark the notice as sent, and it clears the record all
    the same: once the clear has gone through, the expiry and the flag are
    gone and the run goes on to the precipitation check. Any later run
    that finds the store without an expiry is in state ACTIVE and sends no
    resume notice: the notice is not retried. *)
Theorem resume_failure_clears_record env s o w str e err :
  missingVars env = [] ->
  truthy (db_REDIS_URL env) = true ->
  get_fault o = None -> has_fault o = None -> clear_fault o = None ->
  redis w !! snoozeKey (locKey s) = Some str ->
  parseInt str = Num e ->
  e <> 0 -> e <= now_status o -> e <= now_expiry o ->
  strict_eq (redis w !! resumeSentKey (locKey s)) "1" = false ->
  resume_result o = Some err ->
  exists w1,
    snoozeStatus (stateOf (redis w !! snoozeKey (locKey s)) (now_status o)) (now_expiry o)
      = EXPIRING /\
    snoozeCheck env s o (db_REDIS_URL env) (locKey s) w = (Ok None, w1) /\
    trace w1 = trace w ++
      [EvRedis (Connect (db_REDIS_URL env)) true;
       EvRedis (Get (snoozeKey (locKey s))) true; EvRedis Quit true;
       EvRedis (Connect (db_REDIS_URL env)) true;
       EvRedis (Get (resumeSentKey (locKey s))) true; EvRedis Quit true;
       EvSend (ResumeMail (SENDER_EMAIL env) (ALERT_EMAIL env) (latitude s) (longitude s))
         (Some err);
       EvError "Failed to send resume email:";
       EvRedis (Connect (db_REDIS_URL env)) true;
       EvRedis (Del (snoozeKey (locKey s))) true;
       EvRedis (Del (resumeSentKey (locKey s))) true; EvRedis Quit true] /\
    redis w1 = delete (resumeSentKey (locKey s)) (delete (snoozeKey (locKey s)) (redis w)) /\
    redis w1 !! snoozeKey (locKey s) = None /\
    redis w1 !! resumeSentKey (locKey s) = None /\
    handler toFixed fmt env s o w = checkRun fmt env s o (db_REDIS_URL env) (locKey s) w1 /\
    (forall now, snoozeStatus (stateOf (redis w1 !! snoozeKey (locKey s)) now) now = ACTIVE) /\
    (forall o2 w2,
       redis w2 !! snoozeKey (locKey s) = None ->
       exists r w2' evs,
         handler toFixed fmt env s o2 w2 = (Ok r, w2') /\
         trace w2' = trace w2 ++ evs /\
         resume_mails evs = []).
Proof.
  intros Hvars Hurl Hget Hhas Hclear Hrec Hparse Hnz Hst Hexp Hflag Hmail.
  assert (Hstr : truthy str = true)
    by (destruct str; [discriminate Hparse | reflexivity]).
  assert (Hz : (e =? 0) = false) by (apply Z.eqb_neq; exact Hnz).
  assert (Hgt : (now_status o <? e) = false) by (apply Z.ltb_ge; exact Hst).
  assert (Hle : (e <=? now_expiry o) = true) by (apply Z.leb_le; exact Hexp).
  assert (Hrun :
    snoozeCheck env s o (db_REDIS_URL env) (locKey s) w =
    (Ok None,
     {| redis := delete (resumeSentKey (locKey s)) (delete (snoozeKey (locKey s)) (redis w));
        fuse := None;
        trace := trace w ++
          [EvRedis (Connect (db_REDIS_URL env)) true;
           EvRedis (Get (snoozeKey (locKey s))) true; EvRedis Quit true;
           EvRedis (Connect (db_REDIS_URL env)) true;
           EvRedis (Get (resumeSentKey (locKey s))) true; EvRedis Quit true;
           EvSend (ResumeMail (SENDER_EMAIL env) (ALERT_EMAIL env) (latitude s) (longitude s))
             (Some err);
           EvError "Failed to send resume email:";
           EvRedis (Connect (db_REDIS_URL env)) true;
           EvRedis (Del (snoozeKey (locKey s))) true;
           EvRedis (Del (resumeSentKey (locKey s))) true; EvRedis Quit true] |})).
  { unfold snoozeCheck, bind. rewrite Hget, Hhas, Hclear, Hmail.
    rewrite getSnoozeState_ok, Hrec. unfold stateOf. rewrite Hstr, Hparse.
    cbn [isSnoozed expiresAt js_gt js_le truthy_num]. rewrite Hgt, Hz, Hle.
    cbn [negb andb]. rewrite hasResumeEmailBeenSent_ok. cbn [redis]. rewrite Hflag.
    cbn [negb]. unfold emails_send, console_error, emit, bind, ret. cbn [redis fuse trace].
    rewrite clearSnooze_ok. cbn [redis trace]. rewrite <- !app_assoc. reflexivity. }
  eexists. split.
  { rewrite Hrec. unfold stateOf, snoozeStatus, expired. rewrite Hstr, Hparse.
    cbn [isSnoozed expiresAt js_gt js_le truthy_num]. now rewrite Hgt, Hz, Hle. }
  split; [exact Hrun|]. cbn [redis trace].
  assert (Hgone :
    delete (resumeSentKey (locKey s)) (delete (snoozeKey (locKey s)) (redis w))
      !! snoozeKey (locKey s) = None).
  { rewrite lookup_delete_ne by (apply not_eq_sym, snoozeKey_neq_resumeSentKey).
    apply lookup_delete_eq. }
  split; [reflexivity|]. split; [reflexivity|]. split; [exact Hgone|].
  split; [apply lookup_delete_eq|].
  split; [exact (handler_continue env s o w _ Hvars Hurl Hrun)|].
  split; [intros now; rewrite Hgone; reflexivity|].
  intros o2 w2 Hnone. exact (active_run_no_resume env s o2 w2 Hvars Hurl Hnone).
Qed.

Ltac same_fields :=
  let k := fresh "k" in
  let v := fresh "v" in
  intros k v; simpl; repeat (destruct (String.eqb k _)); auto; discriminate.

Ltac refine_case :=
  do 4 eexists; split; [reflexivity|]; split; [reflexivity|]; events; cbn [redis];
  repeat split; try reflexivity; try same_fields;
  try (intros Hne; try (now elim Hne); intros Heq; injection Heq as Heq;
       now apply degree_snooze_neq_plain).

(** C10. With no Redis URL set, the handler with snooze support issues no
    Redis command and leaves the store alone, and it agrees with the plain
    handler on the same configuration and the same answers of the
    outside in all but one point: same status, every field of the plain
    response present with the same value (so the same message,
    precipitation and threshold), the same weather requests, and mails
    with the same sender, recipient, location, dates, total and
    threshold. The one difference is the sign written after the
    coordinates in the alert mail, so whenever a mail is sent the two
    mails are not the same. *)
Theorem no_store_refines_plain env s o w :
  truthy (db_REDIS_URL env) = false ->
  exists rs ws rp wp,
    handler toFixed fmt env s o w = (Ok rs, ws) /\
    Plain.handler env s o w = (Ok rp, wp) /\
    redis ws = redis w /\
    redis_cmds (new_events w ws) = [] /\
    status rs = status rp /\
    field "message" (body rs) = field "message" (body rp) /\
    field "precipitation" (body rs) = field "precipitation" (body rp) /\
    field "threshold" (body rs) = field "threshold" (body rp) /\
    List.map (with_degree degree_plain) (mails (new_events w ws)) = mails (new_events w wp) /\
    (mails (new_events w ws) <> [] -> mails (new_events w ws) <> mails (new_events w wp)) /\
    fetches (new_events w ws) = fetches (new_events w wp) /\
    (forall k v, field k (body rp) = Some v -> field k (body rs) = Some v).
Proof.
  intros Hurl. unfold handler, Plain.handler, missingVars, precipitationCheck, internalError.
  rewrite Hurl.
  destruct (truthy (RESEND_API_KEY env)), (truthy (ALERT_EMAIL env)),
    (truthy (SENDER_EMAIL env)); run; try refine_case.
  destruct (weather o) as [msg|[[|[[[vs|]|]] rest]|]]; run; try refine_case.
  destruct (thresholdInches s <? totalInches vs)%float; run; [|refine_case].
  destruct (alert_result o) as [err|]; run; refine_case.
Qed.

End HandlerProperties.

(** * Further properties of the code *)

(** ** The Redis helpers under rejected calls *)

(** [setSnooze] raises when one of its three Redis calls is rejected
    and, the calls going through, when the expiry is outside the range of
    [Date]; it returns otherwise. The new expiry is in the store unless
    the connection or the [SET] itself was rejected: a rejected [QUIT] and
    an expiry out of range raise although the write went through. *)
Theorem setSnooze_rejections f now url key weeks w :
  let r := setSnooze fmt f now url key weeks w in
  let written := <[snoozeKey key := numberToString fmt (expiryOf now weeks)]> (redis w) in
  match f with
  | Some 0%nat | Some 1%nat =>
      response_of r = Throw "redis" /\ redis (world_of r) = redis w
  | Some 2%nat =>
      response_of r = Throw "redis" /\ redis (world_of r) = written
  | _ =>
      response_of r =
        (if validTime (expiryOf now weeks * 1000) then Ok tt
         else Throw "Invalid time value") /\
      redis (world_of r) = written
  end.
Proof.
  unfold setSnooze, logDate, response_of, world_of.
  destruct (validTime (expiryOf now weeks * 1000));
    destruct f as [[|[|[|n]]]|]; run; split; reflexivity.
Qed.

(** [clearSnooze] deletes the expiry first and the flag second, and raises
    when any of its four Redis calls is rejected: a rejection of the
    second [DEL] leaves the flag without its expiry. *)
Theorem clearSnooze_rejections f url key w :
  let r := clearSnooze f url key w in
  match f with
  | Some 0%nat | Some 1%nat =>
      response_of r = Throw "redis" /\ redis (world_of r) = redis w
  | Some 2%nat =>
      response_of r = Throw "redis" /\
      redis (world_of r) = delete (snoozeKey key) (redis w)
  | Some 3%nat =>
      response_of r = Throw "redis" /\
      redis (world_of r) = delete (resumeSentKey key) (delete (snoozeKey key) (redis w))
  | _ =>
      response_of r = Ok tt /\
      redis (world_of r) = delete (resumeSentKey key) (delete (snoozeKey key) (redis w))
  end.
Proof.
  unfold clearSnooze, response_of, world_of.
  destruct f as [[|[|[|[|n]]]]|]; run; split; reflexivity.
Qed.

(** [markResumeEmailSent] never raises: a rejected call is logged and
    swallowed. The flag reads as sent afterwards unless the connection or
    the [SET] was rejected, and the expiry is never touched. *)
Theorem markResumeEmailSent_swallows_failure f url key w :
  exists w',
    markResumeEmailSent f url key w = (Ok tt, w') /\
    redis w' !! snoozeKey key = redis w !! snoozeKey key /\
    match f with
    | Some 0%nat | Some 1%nat => redis w' = redis w
    | _ => response_of (hasResumeEmailBeenSent None url key w') = Ok true
    end.
Proof.
  pose proof (snoozeKey_neq_resumeSentKey key) as Hne.
  unfold markResumeEmailSent.
  destruct f as [[|[|[|n]]]|]; run; eexists; (split; [reflexivity|]); cbn [redis];
    (split; [try reflexivity; apply lookup_insert_ne; congruence|]);
    try reflexivity;
    unfold hasResumeEmailBeenSent, response_of; run;
    now rewrite lookup_insert_eq.
Qed.

(** [hasResumeEmailBeenSent] never raises and never changes the store.
    When one of its calls is rejected it answers "not sent", whatever the
    flag says; otherwise it answers whether the flag is the string "1". *)
Theorem hasResumeEmailBeenSent_fails_to_not_sent f url key w :
  exists b w',
    hasResumeEmailBeenSent f url key w = (Ok b, w') /\
    redis w' = redis w /\
    b = match f with
        | Some 0%nat | Some 1%nat | Some 2%nat => false
        | _ => strict_eq (redis w !! resumeSentKey key) "1"
        end.
Proof.
  unfold hasResumeEmailBeenSent.
  destruct f as [[|[|[|n]]]|]; run; do 2 eexists; repeat split; reflexivity.
Qed.

(** ** The snooze record through the helpers *)

(** After a [clearSnooze] that went through, whatever the store held, the
    state reads as absent (ACTIVE at any time), the flag reads as not
    sent, and a second [clearSnooze] changes nothing. *)
Theorem clearSnooze_resets_record url key now w :
  exists w1 w2,
    clearSnooze None url key w = (Ok tt, w1) /\
    response_of (getSnoozeState None now url key w1) = Ok absent /\
    snoozeStatus absent now = ACTIVE /\
    response_of (hasResumeEmailBeenSent None url key w1) = Ok false /\
    clearSnooze None url key w1 = (Ok tt, w2) /\
    redis w2 = redis w1.
Proof.
  pose proof (snoozeKey_neq_resumeSentKey key) as Hne.
  rewrite clearSnooze_ok. do 2 eexists. split; [reflexivity|].
  rewrite getSnoozeState_ok, hasResumeEmailBeenSent_ok, clearSnooze_ok.
  unfold response_of. cbn [fst redis].
  rewrite lookup_delete_ne by congruence. rewrite !lookup_delete_eq.
  repeat split. cbn [redis].
  rewrite (delete_id (delete (resumeSentKey key) (delete (snoozeKey key) (redis w)))
             (snoozeKey key))
    by (rewrite lookup_delete_ne by congruence; apply lookup_delete_eq).
  apply delete_id, lookup_delete_eq.
Qed.

(** Two calls of [setSnooze] in a row leave the store as the second one
    alone would: a new snooze replaces the running one, it does not add
    to it. *)
Theorem setSnooze_last_write_wins url key now1 weeks1 now2 weeks2 w :
  let w1 := world_of (setSnooze fmt None now1 url key weeks1 w) in
  let w2 := world_of (setSnooze fmt None now2 url key weeks2 w1) in
  let w2' := world_of (setSnooze fmt None now2 url key weeks2 w) in
  redis w2 = redis w2' /\
  redis w2 !! snoozeKey key = Some (numberToString fmt (expiryOf now2 weeks2)) /\
  (forall e, intValue (expiryOf now2 weeks2) = Some e -> Z.abs e < 2 ^ 53 ->
     expiresAt (stateOf (redis w2 !! snoozeKey key) now2) = Some (Num e)).
Proof.
  cbv zeta. rewrite !setSnooze_store.
  split; [apply insert_insert_eq|]. rewrite lookup_insert_eq. split; [reflexivity|].
  intros e He Hlt. now rewrite (stateOf_numberToString _ _ _ He Hlt).
Qed.

(** The expiry is kept per location key: a [setSnooze] for one key,
    whatever becomes of its Redis calls, does not change what
    [getSnoozeState] reads for another. *)
Theorem setSnooze_other_location f url key1 key2 now weeks now' w :
  key1 <> key2 ->
  let w1 := world_of (setSnooze fmt f now url key1 weeks w) in
  response_of (getSnoozeState None now' url key2 w1) =
    response_of (getSnoozeState None now' url key2 w).
Proof.
  intros Hne. cbv zeta.
  rewrite !getSnoozeState_ok. unfold response_of. cbn [fst].
  rewrite setSnooze_store.
  destruct f as [[|[|[|n]]]|]; try reflexivity.
  all: rewrite lookup_insert_ne; [reflexivity|].
  all: unfold snoozeKey; intros H; apply Hne; exact (String.app_inj _ _ _ H).
Qed.

(** A snooze whose expiry is not later than the clock reading, as zero or
    negative weeks give, does not snooze: read back at the same time, the
    record is not snoozed but already expired (unless the expiry is 0,
    which reads as no expiry at all). *)
Theorem expiry_not_after_now_does_not_snooze url key weeks now e w :
  intValue (expiryOf now weeks) = Some e ->
  Z.abs e < 2 ^ 53 ->
  e <= now ->
  let w1 := world_of (setSnooze fmt None now url key weeks w) in
  exists st w2,
    getSnoozeState None now url key w1 = (Ok st, w2) /\
    isSnoozed st = false /\
    snoozeStatus st now = (if e =? 0 then ACTIVE else EXPIRING).
Proof.
  intros He Hlt Hle. cbv zeta. rewrite getSnoozeState_ok. do 2 eexists.
  split; [reflexivity|]. rewrite setSnooze_store, lookup_insert_eq.
  rewrite (stateOf_numberToString _ _ _ He Hlt). unfold snoozeStatus, expired.
  cbn [isSnoozed expiresAt js_le truthy_num].
  replace (now <? e) with false by (symmetry; apply Z.ltb_ge; lia).
  replace (e <=? now) with true by (symmetry; apply Z.leb_le; lia).
  split; [reflexivity|]. destruct (e =? 0); reflexivity.
Qed.

(** ** Rainfall totals that are not numbers, and the bands of the tiers *)

Lemma is_nan_Prim2SF (x : float) : is_nan x = true <-> Prim2SF x = S754_nan.
Proof.
  unfold is_nan. rewrite FloatAxioms.eqb_spec. unfold SFeqb.
  destruct (Prim2SF x) as [a|a| |a m e]; simpl.
  - split; discriminate.
  - destruct a; split; discriminate.
  - tauto.
  - destruct a; rewrite Z.compare_refl, Pos.compare_cont_refl; split; discriminate.
Qed.

Lemma sum_nan_acc (l : list float) (acc : float) :
  Prim2SF acc = S754_nan ->
  Prim2SF (fold_left (fun sum value => sum + value)%float l acc) = S754_nan.
Proof.
  revert acc. induction l as [|v l IH]; intros acc Hacc; [exact Hacc|].
  simpl. apply IH. rewrite add_spec, Hacc. reflexivity.
Qed.

Lemma sum_nan (l : list float) (acc v : float) :
  In v l -> Prim2SF v = S754_nan ->
  Prim2SF (fold_left (fun sum value => sum + value)%float l acc) = S754_nan.
Proof.
  revert acc. induction l as [|x l IH]; intros acc Hin Hv; [destruct Hin|].
  simpl. destruct Hin as [->|Hin].
  - apply sum_nan_acc. rewrite add_spec, Hv. now destruct (Prim2SF acc).
  - now apply IH.
Qed.

Lemma totalInches_nan (vs : list float) (v : float) :
  In v vs -> is_nan v = true -> Prim2SF (totalInches vs) = S754_nan.
Proof.
  intros Hin Hv. apply is_nan_Prim2SF in Hv. unfold totalInches.
  rewrite div_spec, (sum_nan vs 0%float v Hin Hv). reflexivity.
Qed.

Lemma ltb_nan (x y : float) :
  Prim2SF x = S754_nan \/ Prim2SF y = S754_nan -> (x <? y)%float = false.
Proof.
  rewrite ltb_spec. unfold SFltb. intros [-> | ->]; [reflexivity|].
  now destruct (Prim2SF x).
Qed.

(** When a daily value is NaN (a day without data) or the threshold is
    NaN (an unreadable setting), the total is never above the threshold:
    the run sends no mail, answers "No alert needed" and leaves the store
    alone, however much it rained on the other days. *)
Theorem nan_never_alerts env s o url key vs rest w :
  weather o = FetchReturns (Some ({| daily := Some (Some vs) |} :: rest)) ->
  is_nan (thresholdInches s) = true \/ (exists v, In v vs /\ is_nan v = true) ->
  exists r w',
    precipitationCheck fmt env s o url key w = (Ok r, w') /\
    field "message" (body r) = Some (JStr "No alert needed") /\
    mails (new_events w w') = [] /\
    redis w' = redis w.
Proof.
  intros Hw Hnan.
  assert (Hthr : (thresholdInches s <? totalInches vs)%float = false).
  { apply ltb_nan. destruct Hnan as [H|(v & Hin & Hv)].
    - left. now apply is_nan_Prim2SF.
    - right. exact (totalInches_nan vs v Hin Hv). }
  unfold precipitationCheck. rewrite Hw. run. rewrite Hthr.
  do 2 eexists. split; [reflexivity|]. events. repeat split.
Qed.

Lemma SFcompare_None x y :
  SFcompare x y = None -> x = S754_nan \/ y = S754_nan.
Proof.
  destruct x as [a|a| |a m e], y as [b|b| |b m' e']; simpl; try discriminate; auto.
Qed.

Lemma SFcompare_zero_l a b x :
  SFcompare (S754_zero a) x = SFcompare (S754_zero b) x.
Proof. destruct x; reflexivity. Qed.

Lemma SFcompare_zero_r a b x :
  SFcompare x (S754_zero a) = SFcompare x (S754_zero b).
Proof. destruct x; reflexivity. Qed.

(** Equal numbers compare alike with any third one. *)
Lemma SFcompare_Eq_l x y z :
  SFcompare x y = Some Eq -> SFcompare x z = SFcompare y z.
Proof.
  intros H. destruct (SFcompare_Eq_inv _ _ H) as [->|(a & b & -> & ->)];
    [reflexivity | apply SFcompare_zero_l].
Qed.

Lemma SFcompare_Eq_r x y z :
  SFcompare x y = Some Eq -> SFcompare z x = SFcompare z y.
Proof.
  intros H. destruct (SFcompare_Eq_inv _ _ H) as [->|(a & b & -> & ->)];
    [reflexivity | apply SFcompare_zero_r].
Qed.

(** When the medium band starts at the threshold and ends where the high
    band starts, as with the default settings, every total above the
    threshold falls in a band: an alert always has a tier, the high one
    from the shared bound on and the medium one below it. *)
Theorem adjoining_bands_cover_alerts s total :
  (snoozeMediumMin s =? thresholdInches s)%float = true ->
  (snoozeHighMin s =? snoozeMediumMax s)%float = true ->
  (thresholdInches s <? total)%float = true ->
  selectTier s total =
    Some (if (snoozeHighMin s <=? total)%float then High else Medium).
Proof.
  unfold selectTier.
  rewrite !FloatAxioms.eqb_spec, ltb_spec, !leb_spec. unfold SFeqb, SFltb, SFleb.
  destruct (SFcompare (Prim2SF (snoozeMediumMin s)) (Prim2SF (thresholdInches s)))
    as [[| |]|] eqn:Hmin; try discriminate. intros _.
  destruct (SFcompare (Prim2SF (snoozeHighMin s)) (Prim2SF (snoozeMediumMax s)))
    as [[| |]|] eqn:Hmax; try discriminate. intros _.
  rewrite (SFcompare_Eq_l _ _ (Prim2SF total) Hmin).
  destruct (SFcompare (Prim2SF (thresholdInches s)) (Prim2SF total))
    as [[| |]|] eqn:Hthr; try discriminate. intros _.
  rewrite <- (SFcompare_Eq_r _ _ (Prim2SF total) Hmax).
  rewrite (SFcompare_antisym (Prim2SF (snoozeHighMin s)) (Prim2SF total)).
  destruct (SFcompare (Prim2SF (snoozeHighMin s)) (Prim2SF total))
    as [[| |]|] eqn:Hhigh; try reflexivity.
  exfalso. apply SFcompare_None in Hhigh. destruct Hhigh as [H|H].
  - rewrite H in Hmax. discriminate Hmax.
  - rewrite H in Hthr. now destruct (Prim2SF (thresholdInches s)).
Qed.

(** ** What a run does to the outside *)

Lemma quiet_mails evs : forallb is_quiet evs = true -> mails evs = [].
Proof.
  induction evs as [|[| | |] evs IH]; simpl; intros H; try discriminate; auto.
Qed.

Lemma quiet_fetches evs : forallb is_quiet evs = true -> fetches evs = [].
Proof.
  induction evs as [|[| | |] evs IH]; simpl; intros H; try discriminate; auto.
Qed.

Lemma quiet_app evs1 evs2 :
  forallb is_quiet evs1 = true -> forallb is_quiet evs2 = true ->
  forallb is_quiet (evs1 ++ evs2) = true.
Proof. intros H1 H2. now rewrite forallb_app, H1, H2. Qed.

Lemma getSnoozeState_quiet f now url key w :
  exists st w' evs,
    getSnoozeState f now url key w = (Ok st, w') /\
    redis w' = redis w /\ trace w' = trace w ++ evs /\ forallb is_quiet evs = true.
Proof.
  unfold getSnoozeState.
  destruct f as [[|[|[|n]]]|]; run.
  1-3: do 3 eexists; repeat split; reflexivity.
  all: destruct (redis w !! snoozeKey key) as [v|]; [destruct (truthy v)|];
    do 3 eexists; repeat split; reflexivity.
Qed.

Lemma hasResumeEmailBeenSent_quiet f url key w :
  exists b w' evs,
    hasResumeEmailBeenSent f url key w = (Ok b, w') /\
    redis w' = redis w /\ trace w' = trace w ++ evs /\ forallb is_quiet evs = true.
Proof.
  unfold hasResumeEmailBeenSent.
  destruct f as [[|[|[|n]]]|]; run; do 3 eexists; repeat split; reflexivity.
Qed.

Lemma markResumeEmailSent_quiet f url key w :
  exists w' evs,
    markResumeEmailSent f url key w = (Ok tt, w') /\
    redis w' !! snoozeKey key = redis w !! snoozeKey key /\
    trace w' = trace w ++ evs /\ forallb is_quiet evs = true.
Proof.
  pose proof (snoozeKey_neq_resumeSentKey key) as Hne.
  unfold markResumeEmailSent.
  destruct f as [[|[|[|n]]]|]; run; do 2 eexists; repeat split; cbn [redis];
    try reflexivity; apply lookup_insert_ne; congruence.
Qed.

Lemma clearSnooze_quiet f url key w :
  exists res w' evs,
    clearSnooze f url key w = (res, w') /\
    (res = Ok tt \/ res = Throw "redis") /\
    trace w' = trace w ++ evs /\ forallb is_quiet evs = true.
Proof.
  unfold clearSnooze.
  destruct f as [[|[|[|[|n]]]]|]; run; do 3 eexists; repeat split; auto.
Qed.

Ltac quiet_facts :=
  repeat match goal with
  | H : forallb is_quiet ?l = true |- _ =>
      pose proof (quiet_mails l H); pose proof (quiet_fetches l H); clear H
  end;
  unfold mails, fetches in *.

Ltac quiet_filter :=
  rewrite ?List.filter_app;
  repeat match goal with
  | H : List.filter ?f ?l = [] |- context [List.filter ?f ?l] => rewrite H
  end;
  simpl.

Ltac gate_leaf :=
  do 3 eexists; split; [reflexivity|];
  split; [cbn [trace] in *;
          repeat match goal with H : trace _ = _ |- _ => rewrite H; clear H end;
          rewrite <- ?app_assoc; reflexivity|];
  quiet_facts; split; [quiet_filter; reflexivity|];
  split; [quiet_filter; auto|]; eauto.

(** The snooze block, whatever the store and the answers of the outside:
    it makes no weather request, hands at most the resume notice to the
    mail service, and ends in one of three ways: it lets the run through,
    it raises, or it returns the "Currently snoozed" response, then with
    no mail at all. *)
Lemma snoozeCheck_cases env s o url key w :
  exists res w1 evs,
    snoozeCheck env s o url key w = (res, w1) /\
    trace w1 = trace w ++ evs /\
    fetches evs = [] /\
    (mails evs = [] \/
     mails evs =
       [EvSend (ResumeMail (SENDER_EMAIL env) (ALERT_EMAIL env) (latitude s) (longitude s))
               (resume_result o)]) /\
    (res = Ok None \/ (exists e, res = Throw e) \/
     (exists ms,
        res = Ok (Some (Response_json 200
                          [("success", JBool true); ("message", JStr "Currently snoozed");
                           ("snoozed", JBool true); ("expiresAt", JIsoDate ms)])) /\
        mails evs = [])).
Proof.
  destruct (getSnoozeState_quiet (get_fault o) (now_status o) url key w)
    as (st & w1 & evs1 & Hget & _ & Htr1 & Hq1).
  unfold snoozeCheck, bind. rewrite Hget.
  destruct (isSnoozed st).
  { unfold toISOString. destruct (times1000 (expiresAt st)) as [|ms];
      [|destruct (Z.abs ms <=? 8640000000000000)]; unfold throw, ret.
    - gate_leaf.
    - do 3 eexists. split; [reflexivity|]. split; [exact Htr1|]. quiet_facts.
      split; [assumption|]. split; [auto|]. right. right. eauto.
    - gate_leaf. }
  destruct (truthy_num (expiresAt st) &&
            match expiresAt st with
            | Some e => js_le e (Num (now_expiry o))
            | None => false
            end); [|unfold ret; gate_leaf].
  destruct (hasResumeEmailBeenSent_quiet (has_fault o) url key w1)
    as (b & w2 & evs2 & Hhas & _ & Htr2 & Hq2).
  rewrite Hhas. destruct b; cbn [negb].
  { unfold ret.
    destruct (clearSnooze_quiet (clear_fault o) url key w2)
      as (res & w3 & evs3 & Hcl & Hres & Htr3 & Hq3).
    rewrite Hcl. destruct Hres as [-> | ->]; gate_leaf. }
  unfold emails_send, emit, bind, ret.
  destruct (resume_result o) as [err|].
  - unfold console_error, emit. cbn [redis fuse trace].
    match goal with
    | |- context [clearSnooze ?f ?u ?k ?w0] =>
        destruct (clearSnooze_quiet f u k w0) as (res & w3 & evs3 & Hcl & Hres & Htr3 & Hq3)
    end.
    rewrite Hcl. destruct Hres as [-> | ->]; gate_leaf.
  - match goal with
    | |- context [markResumeEmailSent ?f ?u ?k ?w0] =>
        destruct (markResumeEmailSent_quiet f u k w0) as (w3 & evs3 & Hmk & _ & Htr3 & Hq3)
    end.
    rewrite Hmk.
    destruct (clearSnooze_quiet (clear_fault o) url key w3)
      as (res & w4 & evs4 & Hcl & Hres & Htr4 & Hq4).
    rewrite Hcl. destruct Hres as [-> | ->]; gate_leaf.
Qed.

Ltac shape :=
  unfold success_response, error_response; simpl;
  first [ left; repeat split; reflexivity
        | right; split; [reflexivity|]; split; [reflexivity|]; eexists; reflexivity ].

Ltac check_leaf :=
  do 2 eexists; split; [intros w; eexists; run; split; reflexivity|];
  split; [shape|]; simpl; repeat split; auto.

(** The precipitation check under the [catch], whatever the answers of the
    outside: it makes exactly one weather request, hands at most one mail
    to the mail service, never the resume notice, and answers with a
    success or an error response. *)
Lemma checkRun_cases env s o url key :
  exists r evs,
    (forall w, exists w', checkRun fmt env s o url key w = (Ok r, w') /\
                          trace w' = trace w ++ evs) /\
    (success_response r \/ error_response r) /\
    fetches evs = [EvFetch (latitude s) (longitude s) (startDateStr o) (endDateStr o)] /\
    (length (mails evs) <= 1)%nat /\
    resume_mails evs = [].
Proof.
  unfold checkRun, precipitationCheck, internalError.
  destruct (weather o) as [msg|[[|[[[vs|]|]] rest]|]].
  1, 2, 4, 5, 6: check_leaf.
  run. destruct (thresholdInches s <? totalInches vs)%float; [|check_leaf].
  destruct (alert_result o) as [err|]; [check_leaf|].
  destruct (truthy url); [|check_leaf].
  destruct (selectTier s (totalInches vs)) as [t|]; [|check_leaf].
  simpl. unfold setSnooze, logDate.
  destruct (validTime (expiryOf (now_snooze o) (tierWeeks s t) * 1000));
    destruct (set_fault o) as [[|[|[|n]]]|]; check_leaf.
Qed.

Section RunProperties.

Variable toFixed : float -> nat -> string.

#[local] Abbreviation locKey s := (getLocationKey toFixed (latitude s) (longitude s)).

Lemma handler_of_snoozeCheck env s o w res w1 :
  missingVars env = [] ->
  truthy (db_REDIS_URL env) = true ->
  snoozeCheck env s o (db_REDIS_URL env) (locKey s) w = (res, w1) ->
  handler toFixed fmt env s o w =
    match res with
    | Ok None => checkRun fmt env s o (db_REDIS_URL env) (locKey s) w1
    | Ok (Some r) => (Ok r, w1)
    | Throw e => internalError e w1
    end.
Proof.
  intros Hvars Hurl H. unfold handler, checkRun, try_catch, bind.
  rewrite Hvars, Hurl. cbn [length Nat.ltb Nat.leb]. rewrite H.
  destruct res as [[r|]|e]; reflexivity.
Qed.

(** The handler never raises: every run ends with a response, either
    status 200 with [success: true] or status 500 with an [error]
    message. One run makes at most one weather request and hands at most
    two mails to the mail service, of which at most one resume notice. *)
Theorem handler_always_responds env s o w :
  exists r w',
    handler toFixed fmt env s o w = (Ok r, w') /\
    (success_response r \/ error_response r) /\
    (length (fetches (new_events w w')) <= 1)%nat /\
    (length (mails (new_events w w')) <= 2)%nat /\
    (length (resume_mails (new_events w w')) <= 1)%nat.
Proof.
  destruct (missingVars env) as [|name names] eqn:Hvars.
  2: { unfold handler, try_catch, bind. rewrite Hvars. run.
       do 2 eexists. split; [reflexivity|]. split; [shape|]. events. simpl. lia. }
  destruct (checkRun_cases env s o (db_REDIS_URL env) (locKey s))
    as (r & evs2 & Hrun & Hshape & Hf2 & Hm2 & Hr2).
  destruct (truthy (db_REDIS_URL env)) eqn:Hurl.
  2: { rewrite (handler_no_store toFixed env s o w Hvars Hurl).
       destruct (Hrun w) as (w' & Hcheck & Htr). exists r, w'.
       split; [exact Hcheck|]. split; [exact Hshape|].
       rewrite (new_events_app w w' evs2 Htr), Hf2, Hr2. simpl. lia. }
  destruct (snoozeCheck_cases env s o (db_REDIS_URL env) (locKey s) w)
    as (res & w1 & evs1 & Hgate & Htr1 & Hf1 & Hm1 & Hres).
  rewrite (handler_of_snoozeCheck env s o w res w1 Hvars Hurl Hgate).
  assert (Hr1 : (length (resume_mails evs1) <= 1)%nat).
  { unfold resume_mails, mails in *. destruct Hm1 as [Hm1|Hm1].
    - clear - Hm1. induction evs1 as [|[| [] | |] evs1 IH]; simpl in *;
        try discriminate; auto.
    - clear - Hm1. revert Hm1.
      generalize (EvSend (ResumeMail (SENDER_EMAIL env) (ALERT_EMAIL env)
                            (latitude s) (longitude s)) (resume_result o)).
      induction evs1 as [|ev evs1 IH]; intros e0 H; simpl in *; [lia|].
      destruct ev as [c ok|m err| |]; simpl in *; try (eapply IH; eassumption).
      injection H as _ H.
      assert (Hnone : List.filter is_resume evs1 = []).
      { clear - H. induction evs1 as [|[| | |] evs1 IH]; simpl in *;
          try discriminate; auto. }
      rewrite Hnone. destruct m; simpl; lia. }
  assert (Hlen1 : (length (mails evs1) <= 1)%nat)
    by (destruct Hm1 as [-> | ->]; simpl; lia).
  destruct Hres as [-> | [(e & ->) | (ms & -> & Hnomail)]].
  - destruct (Hrun w1) as (w' & Hcheck & Htr). exists r, w'.
    split; [exact Hcheck|]. split; [exact Hshape|].
    rewrite (new_events_app w w' (evs1 ++ evs2))
      by (rewrite Htr, Htr1; symmetry; apply app_assoc).
    unfold fetches, mails, resume_mails in *.
    rewrite !List.filter_app, !length_app, Hf1, Hf2, Hr2. simpl. lia.
  - unfold internalError. run. do 2 eexists. split; [reflexivity|]. split; [shape|].
    rewrite (new_events_app w _ (evs1 ++ [EvError "Error checking precipitation:"]))
      by (cbn [trace]; rewrite Htr1; symmetry; apply app_assoc).
    unfold fetches, mails, resume_mails in *.
    rewrite !List.filter_app, !length_app, Hf1. simpl. lia.
  - do 2 eexists. split; [reflexivity|]. split; [shape|].
    rewrite (new_events_app w w1 evs1 Htr1).
    unfold fetches, mails, resume_mails in *. rewrite Hf1. simpl. lia.
Qed.


(** An expired snooze whose notice has not been sent, with the mail
    service and Redis working: the run delivers the resume notice once,
    sets the flag, deletes the expiry and the flag, and goes on to the
    precipitation check in the same run. *)
Theorem expired_notice_delivered env s o w str e :
  missingVars env = [] ->
  truthy (db_REDIS_URL env) = true ->
  get_fault o = None -> has_fault o = None -> mark_fault o = None -> clear_fault o = None ->
  redis w !! snoozeKey (locKey s) = Some str ->
  parseInt str = Num e ->
  e <> 0 -> e <= now_status o -> e <= now_expiry o ->
  strict_eq (redis w !! resumeSentKey (locKey s)) "1" = false ->
  resume_result o = None ->
  exists w1,
    handler toFixed fmt env s o w = checkRun fmt env s o (db_REDIS_URL env) (locKey s) w1 /\
    trace w1 = trace w ++
      [EvRedis (Connect (db_REDIS_URL env)) true;
       EvRedis (Get (snoozeKey (locKey s))) true; EvRedis Quit true;
       EvRedis (Connect (db_REDIS_URL env)) true;
       EvRedis (Get (resumeSentKey (locKey s))) true; EvRedis Quit true;
       EvSend (ResumeMail (SENDER_EMAIL env) (ALERT_EMAIL env) (latitude s) (longitude s))
         None;
       EvRedis (Connect (db_REDIS_URL env)) true;
       EvRedis (Set_ (resumeSentKey (locKey s)) "1") true; EvRedis Quit true;
       EvRedis (Connect (db_REDIS_URL env)) true;
       EvRedis (Del (snoozeKey (locKey s))) true;
       EvRedis (Del (resumeSentKey (locKey s))) true; EvRedis Quit true] /\
    redis w1 !! snoozeKey (locKey s) = None /\
    redis w1 !! resumeSentKey (locKey s) = None /\
    (forall k, k <> snoozeKey (locKey s) -> k <> resumeSentKey (locKey s) ->
               redis w1 !! k = redis w !! k).
Proof.
  intros Hvars Hurl Hget Hhas Hmark Hclear Hrec Hparse Hnz Hst Hexp Hflag Hmail.
  assert (Hstr : truthy str = true)
    by (destruct str; [discriminate Hparse | reflexivity]).
  assert (Hz : (e =? 0) = false) by (apply Z.eqb_neq; exact Hnz).
  assert (Hgt : (now_status o <? e) = false) by (apply Z.ltb_ge; exact Hst).
  assert (Hle : (e <=? now_expiry o) = true) by (apply Z.leb_le; exact Hexp).
  pose proof (snoozeKey_neq_resumeSentKey (locKey s)) as Hne.
  eexists. split.
  { apply (handler_continue toFixed env s o w _ Hvars Hurl).
    unfold snoozeCheck, bind. rewrite Hget, Hhas, Hmark, Hclear, Hmail.
    rewrite getSnoozeState_ok, Hrec. unfold stateOf. rewrite Hstr, Hparse.
    cbn [isSnoozed expiresAt js_gt js_le truthy_num]. rewrite Hgt, Hz, Hle.
    cbn [negb andb]. rewrite hasResumeEmailBeenSent_ok. cbn [redis]. rewrite Hflag.
    cbn [negb]. unfold emails_send, markResumeEmailSent. run. reflexivity. }
  cbn [trace redis]. split; [reflexivity|].
  split; [rewrite lookup_delete_ne by congruence; apply lookup_delete_eq|].
  split; [apply lookup_delete_eq|].
  intros k Hk1 Hk2. rewrite !lookup_delete_ne by congruence.
  apply lookup_insert_ne. congruence.
Qed.

(** An expired snooze whose flag is already set: the run sends no resume
    notice, deletes the expiry and the flag, and goes on to the
    precipitation check. *)
Theorem expired_already_notified env s o w str e :
  missingVars env = [] ->
  truthy (db_REDIS_URL env) = true ->
  get_fault o = None -> has_fault o = None -> clear_fault o = None ->
  redis w !! snoozeKey (locKey s) = Some str ->
  parseInt str = Num e ->
  e <> 0 -> e <= now_status o -> e <= now_expiry o ->
  redis w !! resumeSentKey (locKey s) = Some "1" ->
  exists w1,
    handler toFixed fmt env s o w = checkRun fmt env s o (db_REDIS_URL env) (locKey s) w1 /\
    mails (new_events w w1) = [] /\
    redis w1 = delete (resumeSentKey (locKey s)) (delete (snoozeKey (locKey s)) (redis w)).
Proof.
  intros Hvars Hurl Hget Hhas Hclear Hrec Hparse Hnz Hst Hexp Hflag.
  assert (Hstr : truthy str = true)
    by (destruct str; [discriminate Hparse | reflexivity]).
  assert (Hz : (e =? 0) = false) by (apply Z.eqb_neq; exact Hnz).
  assert (Hgt : (now_status o <? e) = false) by (apply Z.ltb_ge; exact Hst).
  assert (Hle : (e <=? now_expiry o) = true) by (apply Z.leb_le; exact Hexp).
  eexists. split.
  { apply (handler_continue toFixed env s o w _ Hvars Hurl).
    unfold snoozeCheck, bind. rewrite Hget, Hhas, Hclear.
    rewrite getSnoozeState_ok, Hrec. unfold stateOf. rewrite Hstr, Hparse.
    cbn [isSnoozed expiresAt js_gt js_le truthy_num]. rewrite Hgt, Hz, Hle.
    cbn [negb andb]. rewrite hasResumeEmailBeenSent_ok. cbn [redis]. rewrite Hflag.
    cbn [strict_eq String.eqb Ascii.eqb Bool.eqb negb]. unfold ret.
    rewrite clearSnooze_ok. cbn [redis trace]. rewrite <- !app_assoc. reflexivity. }
  split; [events; reflexivity | reflexivity].
Qed.

(** When the flag cannot be read (a Redis call of
    [hasResumeEmailBeenSent] is rejected), the run takes the notice as not
    sent and sends it, whatever the flag says: a notice already sent is
    sent again. *)
Theorem flag_check_failure_resends env s o w str e k :
  missingVars env = [] ->
  truthy (db_REDIS_URL env) = true ->
  get_fault o = None -> has_fault o = Some k -> (k < 3)%nat ->
  mark_fault o = None -> clear_fault o = None ->
  redis w !! snoozeKey (locKey s) = Some str ->
  parseInt str = Num e ->
  e <> 0 -> e <= now_status o -> e <= now_expiry o ->
  resume_result o = None ->
  exists w1 evs,
    handler toFixed fmt env s o w = checkRun fmt env s o (db_REDIS_URL env) (locKey s) w1 /\
    trace w1 = trace w ++ evs /\
    mails evs =
      [EvSend (ResumeMail (SENDER_EMAIL env) (ALERT_EMAIL env) (latitude s) (longitude s))
              None] /\
    redis w1 !! snoozeKey (locKey s) = None.
Proof.
  intros Hvars Hurl Hget Hhas Hk Hmark Hclear Hrec Hparse Hnz Hst Hexp Hmail.
  assert (Hstr : truthy str = true)
    by (destruct str; [discriminate Hparse | reflexivity]).
  assert (Hz : (e =? 0) = false) by (apply Z.eqb_neq; exact Hnz).
  assert (Hgt : (now_status o <? e) = false) by (apply Z.ltb_ge; exact Hst).
  assert (Hle : (e <=? now_expiry o) = true) by (apply Z.leb_le; exact Hexp).
  pose proof (snoozeKey_neq_resumeSentKey (locKey s)) as Hne.
  assert (Hgate : exists w1 evs,
    snoozeCheck env s o (db_REDIS_URL env) (locKey s) w = (Ok None, w1) /\
    trace w1 = trace w ++ evs /\
    mails evs =
      [EvSend (ResumeMail (SENDER_EMAIL env) (ALERT_EMAIL env) (latitude s) (longitude s))
              None] /\
    redis w1 !! snoozeKey (locKey s) = None).
  { unfold snoozeCheck, bind. rewrite Hget, Hhas, Hmark, Hclear, Hmail.
    rewrite getSnoozeState_ok, Hrec. unfold stateOf. rewrite Hstr, Hparse.
    cbn [isSnoozed expiresAt js_gt js_le truthy_num]. rewrite Hgt, Hz, Hle.
    cbn [negb andb].
    unfold hasResumeEmailBeenSent, emails_send, markResumeEmailSent, clearSnooze.
    destruct k as [|[|[|k]]]; [| | |lia]; run; do 2 eexists;
      (split; [reflexivity|]); cbn [trace redis]; (split; [reflexivity|]);
      (split; [reflexivity|]);
      rewrite lookup_delete_ne by congruence; apply lookup_delete_eq. }
  destruct Hgate as (w1 & evs & Hgate & Htr & Hmails & Hgone).
  exists w1, evs. split; [|auto].
  exact (handler_continue toFixed env s o w w1 Hvars Hurl Hgate).
Qed.

Lemma clearSnooze_throws k url key w :
  (k < 4)%nat ->
  exists w' evs,
    clearSnooze (Some k) url key w = (Throw "redis", w') /\
    trace w' = trace w ++ evs /\ forallb is_quiet evs = true /\
    redis w' !! snoozeKey key =
      (if (k <? 2)%nat then redis w !! snoozeKey key else None).
Proof.
  intros Hk. pose proof (snoozeKey_neq_resumeSentKey key) as Hne.
  unfold clearSnooze.
  destruct k as [|[|[|[|k]]]]; [| | | |lia]; run; do 2 eexists;
    (split; [reflexivity|]); cbn [trace redis]; (split; [reflexivity|]);
    (split; [reflexivity|]); try reflexivity;
    rewrite ?(lookup_delete_ne _ (resumeSentKey key)) by congruence;
    apply lookup_delete_eq.
Qed.

(** When a Redis call of [clearSnooze] is rejected while an expired snooze
    is being resolved, the run is aborted, whatever happened to the resume
    notice before: it answers "Internal server error" with status 500 and
    makes no weather request. The expiry is still in the store when the
    rejection came before the first [DEL] went through, and gone
    otherwise. *)
Theorem clear_failure_aborts_run env s o w str e k :
  missingVars env = [] ->
  truthy (db_REDIS_URL env) = true ->
  get_fault o = None ->
  clear_fault o = Some k -> (k < 4)%nat ->
  redis w !! snoozeKey (locKey s) = Some str ->
  parseInt str = Num e ->
  e <> 0 -> e <= now_status o -> e <= now_expiry o ->
  exists w',
    handler toFixed fmt env s o w =
      (Ok (Response_json 500
             [("error", JStr "Internal server error"); ("details", JStr "redis")]), w') /\
    fetches (new_events w w') = [] /\
    redis w' !! snoozeKey (locKey s) = (if (k <? 2)%nat then Some str else None).
Proof.
  intros Hvars Hurl Hget Hclear Hk Hrec Hparse Hnz Hst Hexp.
  assert (Hstr : truthy str = true)
    by (destruct str; [discriminate Hparse | reflexivity]).
  assert (Hz : (e =? 0) = false) by (apply Z.eqb_neq; exact Hnz).
  assert (Hgt : (now_status o <? e) = false) by (apply Z.ltb_ge; exact Hst).
  assert (Hle : (e <=? now_expiry o) = true) by (apply Z.leb_le; exact Hexp).
  assert (Hgate : exists w3 evs,
    snoozeCheck env s o (db_REDIS_URL env) (locKey s) w = (Throw "redis", w3) /\
    trace w3 = trace w ++ evs /\ fetches evs = [] /\
    redis w3 !! snoozeKey (locKey s) = (if (k <? 2)%nat then Some str else None)).
  { unfold snoozeCheck, bind. rewrite Hget, Hclear.
    rewrite getSnoozeState_ok, Hrec. unfold stateOf. rewrite Hstr, Hparse.
    cbn [isSnoozed expiresAt js_gt js_le truthy_num]. rewrite Hgt, Hz, Hle.
    cbn [negb andb].
    match goal with
    | |- context [hasResumeEmailBeenSent ?f ?u ?key ?w0] =>
        destruct (hasResumeEmailBeenSent_quiet f u key w0)
          as (b & w2 & evs2 & Hhas & Hst2 & Htr2 & Hq2)
    end.
    rewrite Hhas. cbn [redis trace] in Hst2, Htr2.
    assert (Hfin : forall w0 evs0,
      redis w0 !! snoozeKey (locKey s) = Some str ->
      trace w0 = trace w ++ evs0 -> fetches evs0 = [] ->
      exists w3 evs,
        (let (r, w') := clearSnooze (Some k) (db_REDIS_URL env) (locKey s) w0 in
         match r with
         | Ok _ => (Ok (@None Response), w')
         | Throw e0 => (Throw e0, w')
         end) = (Throw "redis", w3) /\
        trace w3 = trace w ++ evs /\ fetches evs = [] /\
        redis w3 !! snoozeKey (locKey s) = (if (k <? 2)%nat then Some str else None)).
    { intros w0 evs0 Hlook Htr0 Hf0.
      destruct (clearSnooze_throws k (db_REDIS_URL env) (locKey s) w0 Hk)
        as (w3 & evs3 & Hcl & Htr3 & Hq3 & Hlook3).
      rewrite Hcl. exists w3, (evs0 ++ evs3). split; [reflexivity|].
      split; [rewrite Htr3, Htr0; symmetry; apply app_assoc|].
      split; [unfold fetches in *; rewrite List.filter_app, Hf0;
              exact (quiet_fetches evs3 Hq3)|].
      rewrite Hlook3, Hlook. reflexivity. }
    assert (Hf2 : fetches
      ([EvRedis (Connect (db_REDIS_URL env)) true;
        EvRedis (Get (snoozeKey (locKey s))) true; EvRedis Quit true] ++ evs2) = []).
    { unfold fetches. rewrite List.filter_app. exact (quiet_fetches evs2 Hq2). }
    destruct b; cbn [negb].
    - unfold ret. eapply (Hfin w2); [rewrite Hst2; exact Hrec | | exact Hf2].
      rewrite Htr2. symmetry. apply app_assoc.
    - unfold emails_send, emit, bind, ret.
      destruct (resume_result o) as [err|].
      + unfold console_error, emit. cbn [redis fuse trace].
        eapply Hfin; cbn [redis trace].
        * rewrite Hst2. exact Hrec.
        * rewrite Htr2, <- !app_assoc. reflexivity.
        * pose proof (quiet_fetches evs2 Hq2) as Hfq2.
          unfold fetches in *. rewrite !List.filter_app, Hfq2. reflexivity.
      + match goal with
        | |- context [markResumeEmailSent ?f ?u ?key ?w0] =>
            destruct (markResumeEmailSent_quiet f u key w0)
              as (w4 & evs4 & Hmk & Hst4 & Htr4 & Hq4)
        end.
        rewrite Hmk. cbn [redis trace] in Hst4, Htr4.
        eapply Hfin.
        * rewrite Hst4, Hst2. exact Hrec.
        * rewrite Htr4, Htr2, <- !app_assoc. reflexivity.
        * pose proof (quiet_fetches evs2 Hq2) as Hfq2.
          pose proof (quiet_fetches evs4 Hq4) as Hfq4.
          unfold fetches in *. rewrite !List.filter_app, Hfq2, Hfq4. reflexivity. }
  destruct Hgate as (w3 & evs & Hgate & Htr & Hf & Hlook).
  rewrite (handler_of_snoozeCheck env s o w _ w3 Hvars Hurl Hgate).
  unfold internalError. run. eexists. split; [reflexivity|]. cbn [redis].
  split; [|exact Hlook].
  rewrite (new_events_app w _ (evs ++ [EvError "Error checking precipitation:"]))
    by (cbn [trace]; rewrite Htr; symmetry; apply app_assoc).
  unfold fetches in *. now rewrite List.filter_app, Hf.
Qed.

Lemma missingVars_In env name :
  In name (missingVars env) <->
  (name = "RESEND_API_KEY" /\ truthy (RESEND_API_KEY env) = false) \/
  (name = "ALERT_EMAIL" /\ truthy (ALERT_EMAIL env) = false) \/
  (name = "SENDER_EMAIL" /\ truthy (SENDER_EMAIL env) = false).
Proof.
  unfold missingVars.
  destruct (truthy (RESEND_API_KEY env)), (truthy (ALERT_EMAIL env)),
    (truthy (SENDER_EMAIL env)); simpl; intuition (try discriminate; auto).
Qed.

(** When a required environment variable is unset or empty, both handlers
    stop at once with status 500: the only event is the [console.error]
    line, so there is no Redis command, no weather request and no mail.
    The handler with snooze support lists, in the [missing] field,
    exactly the variables that are unset. *)
Theorem missing_env_stops_run env s o w :
  missingVars env <> [] ->
  handler toFixed fmt env s o w =
    (Ok (Response_json 500
           [("error", JStr "Missing required environment variables");
            ("missing", JStrs (missingVars env))]),
     {| redis := redis w; fuse := fuse w;
        trace := trace w ++ [EvError "Missing required environment variables:"] |}) /\
  Plain.handler env s o w =
    (Ok (Response_json 500 [("error", JStr "Missing required environment variables")]),
     {| redis := redis w; fuse := fuse w;
        trace := trace w ++ [EvError "Missing required environment variables"] |}) /\
  (forall name,
     In name (missingVars env) <->
     (name = "RESEND_API_KEY" /\ truthy (RESEND_API_KEY env) = false) \/
     (name = "ALERT_EMAIL" /\ truthy (ALERT_EMAIL env) = false) \/
     (name = "SENDER_EMAIL" /\ truthy (SENDER_EMAIL env) = false)).
Proof.
  intros Hvars. split; [|split; [|apply missingVars_In]].
  - unfold handler, try_catch, bind.
    destruct (missingVars env) as [|name names]; [congruence|]. reflexivity.
  - unfold Plain.handler. revert Hvars. unfold missingVars.
    destruct (truthy (RESEND_API_KEY env)), (truthy (ALERT_EMAIL env)),
      (truthy (SENDER_EMAIL env)); simpl; intros Hvars; try congruence; reflexivity.
Qed.

(** An alert that snoozes silences the runs that follow. A run that finds
    no record, alerts and matches a tier writes the expiry; when that
    expiry is a whole number of seconds inside the range of [Date], any
    later run whose clock reads less returns the "Currently snoozed"
    response carrying it, with no weather request and no mail. *)
Theorem alert_snoozes_next_run env s o o2 w vs rest t e :
  missingVars env = [] ->
  truthy (db_REDIS_URL env) = true ->
  get_fault o = None -> set_fault o = None ->
  redis w !! snoozeKey (locKey s) = None ->
  weather o = FetchReturns (Some ({| daily := Some (Some vs) |} :: rest)) ->
  (thresholdInches s <? totalInches vs)%float = true ->
  alert_result o = None ->
  selectTier s (totalInches vs) = Some t ->
  intValue (expiryOf (now_snooze o) (tierWeeks s t)) = Some e ->
  Z.abs (e * 1000) <= 8640000000000000 ->
  get_fault o2 = None ->
  now_status o2 < e ->
  exists r1 w1 w2,
    handler toFixed fmt env s o w = (Ok r1, w1) /\
    field "message" (body r1) = Some (JStr "Alert sent") /\
    field "snoozeWeeks" (body r1) = Some (JNum (tierWeeks s t)) /\
    handler toFixed fmt env s o2 w1 =
      (Ok (Response_json 200
             [("success", JBool true); ("message", JStr "Currently snoozed");
              ("snoozed", JBool true); ("expiresAt", JIsoDate (e * 1000))]),
       w2) /\
    fetches (new_events w1 w2) = [] /\
    mails (new_events w1 w2) = [] /\
    redis w2 = redis w1.
Proof.
  intros Hvars Hurl Hget Hset Hrec Hw Hthr Hmail Hsel He Hrange Hget2 Hnow.
  assert (Hlt : Z.abs e < 2 ^ 53) by lia.
  assert (Hrun1 : exists r1 w1,
    handler toFixed fmt env s o w = (Ok r1, w1) /\
    field "message" (body r1) = Some (JStr "Alert sent") /\
    field "snoozeWeeks" (body r1) = Some (JNum (tierWeeks s t)) /\
    redis w1 !! snoozeKey (locKey s) =
      Some (numberToString fmt (expiryOf (now_snooze o) (tierWeeks s t)))).
  { rewrite (handler_continue toFixed env s o w _ Hvars Hurl
               (snoozeCheck_absent env s o _ _ w _
                  ltac:(rewrite Hget, getSnoozeState_ok, Hrec; reflexivity))).
    unfold checkRun, precipitationCheck. rewrite Hw. run.
    rewrite Hthr, Hmail, Hurl, Hsel, Hset. run. unfold setSnooze, logDate.
    destruct (validTime (expiryOf (now_snooze o) (tierWeeks s t) * 1000)); run.
    all: do 2 eexists; (split; [reflexivity|]); cbn [redis].
    all: repeat split; apply lookup_insert_eq. }
  destruct Hrun1 as (r1 & w1 & Hrun1 & Hmsg & Hweeks & Hlook).
  exists r1, w1. eexists. split; [exact Hrun1|]. split; [exact Hmsg|].
  split; [exact Hweeks|].
  unfold handler, snoozeCheck. rewrite Hvars, Hurl, Hget2.
  unfold try_catch, bind. cbn [length Nat.ltb Nat.leb].
  rewrite getSnoozeState_ok, Hlook.
  rewrite (stateOf_numberToString _ _ _ He Hlt).
  cbn [isSnoozed expiresAt times1000 toISOString].
  replace (now_status o2 <? e) with true by (symmetry; apply Z.ltb_lt; lia).
  replace (Z.abs (e * 1000) <=? 8640000000000000) with true
    by (symmetry; apply Z.leb_le; lia).
  cbn [ret]. split; [reflexivity|]. events. repeat split.
Qed.

End RunProperties.

(** ** Weather data that cannot be used *)

(** When the weather service gives nothing to add up (the request raises,
    there is no response, no daily block or no precipitation values), the
    run ends with status 500 after the one weather request: it sends no
    mail, issues no Redis command and leaves the store as it was. *)
Theorem weather_unavailable_is_safe env s o url key w :
  (forall vs rest,
     weather o <> FetchReturns (Some ({| daily := Some (Some vs) |} :: rest))) ->
  exists r w' note,
    checkRun fmt env s o url key w = (Ok r, w') /\
    error_response r /\
    new_events w w' =
      [EvFetch (latitude s) (longitude s) (startDateStr o) (endDateStr o); EvError note] /\
    redis w' = redis w.
Proof.
  intros Hbad. unfold checkRun, precipitationCheck, internalError.
  destruct (weather o) as [msg|[[|[[[vs|]|]] rest]|]]; run;
    try (exfalso; exact (Hbad _ _ eq_refl));
    do 3 eexists; (split; [reflexivity|]);
    (split; [unfold error_response; simpl; split; [reflexivity|];
             split; [reflexivity|]; eexists; reflexivity|]);
    events; split; reflexivity.
Qed.

(** ** The plain handler *)

(** The plain handler never raises and never touches Redis: every run ends
    with a success or an error response, issues no Redis command, leaves
    the store as it was, sends no resume notice, and makes at most one
    weather request and hands at most one mail to the mail service. *)
Theorem plain_handler_never_uses_redis env s o w :
  exists r w',
    Plain.handler env s o w = (Ok r, w') /\
    (success_response r \/ error_response r) /\
    redis w' = redis w /\
    redis_cmds (new_events w w') = [] /\
    resume_mails (new_events w w') = [] /\
    (length (mails (new_events w w')) <= 1)%nat /\
    (length (fetches (new_events w w')) <= 1)%nat.
Proof.
  unfold Plain.handler.
  assert (Hleaf : forall (r : Response) (evs : list Event),
    (success_response r \/ error_response r) ->
    redis_cmds evs = [] -> resume_mails evs = [] ->
    (length (mails evs) <= 1)%nat -> (length (fetches evs) <= 1)%nat ->
    exists r0 w',
      (Ok r, {| redis := redis w; fuse := fuse w; trace := trace w ++ evs |}) = (Ok r0, w') /\
      (success_response r0 \/ error_response r0) /\
      redis w' = redis w /\
      redis_cmds (new_events w w') = [] /\
      resume_mails (new_events w w') = [] /\
      (length (mails (new_events w w')) <= 1)%nat /\
      (length (fetches (new_events w w')) <= 1)%nat).
  { intros r evs Hs H1 H2 H3 H4. do 2 eexists. split; [reflexivity|]. events.
    cbn [redis]. repeat split; assumption. }
  destruct (truthy (RESEND_API_KEY env)), (truthy (ALERT_EMAIL env)),
    (truthy (SENDER_EMAIL env)); run;
    try (apply Hleaf; [shape|reflexivity|reflexivity|simpl; lia|simpl; lia]).
  destruct (weather o) as [msg|[[|[[[vs|]|]] rest]|]]; run;
    try (apply Hleaf; [shape|reflexivity|reflexivity|simpl; lia|simpl; lia]).
  destruct (thresholdInches s <? totalInches vs)%float; run;
    [|apply Hleaf; [shape|reflexivity|reflexivity|simpl; lia|simpl; lia]].
  destruct (alert_result o) as [err|]; run;
    apply Hleaf; (shape || reflexivity || (simpl; lia)).
Qed.

End Properties.

(** * The properties on sample runs *)

Lemma snooze_round_trip_witness :
  exists w1 st w2,
    setSnooze sample_format None 1700000000 "redis://r" sample_key 2 (world_with ∅)
      = (Ok tt, w1) /\
    getSnoozeState None 1700000000 "redis://r" sample_key w1 = (Ok st, w2) /\
    snoozeStatus st 1700000000 = SNOOZED /\
    isSnoozed st = true /\
    expiresAt st = Some (Num 1701209600).
Proof.
  assert (He : intValue (expiryOf 1700000000 2) = Some 1701209600)
    by (vm_compute; reflexivity).
  assert (Hlt : Z.abs 1701209600 < 2 ^ 53) by reflexivity.
  assert (Hnow : 1700000000 < 1701209600) by reflexivity.
  assert (Hv : validTime (expiryOf 1700000000 2 * 1000) = true)
    by (vm_compute; reflexivity).
  exact (snooze_round_trip sample_format "redis://r" sample_key 2 1700000000 1701209600
           (world_with ∅) He Hlt Hnow Hv).
Defined.

(** C6, counterexample. A positive number of weeks so small that the
    floating-point sum [now + weeks * 604800] is [now] itself:
    [setSnooze] returns, and the state read back at the same time is not
    snoozed but expired, with expiry [now]. *)
Lemma tiny_weeks_not_snoozed :
  let set :=
    setSnooze sample_format None 2000000 "redis://db" sample_key 1e-20 (world_with ∅) in
  let get := getSnoozeState None 2000000 "redis://db" sample_key (world_of set) in
  (0 <? 1e-20)%float = true /\
  response_of set = Ok tt /\
  redis (world_of set) !! snoozeKey sample_key = Some "2000000" /\
  response_of get = Ok {| isSnoozed := false; expiresAt := Some (Num 2000000) |} /\
  snoozeStatus {| isSnoozed := false; expiresAt := Some (Num 2000000) |} 2000000 = EXPIRING /\
  (forall st, response_of get = Ok st -> snoozeStatus st 2000000 <> SNOOZED).
Proof.
  cbv zeta. do 5 (split; [vm_compute; reflexivity|]).
  intros st H. vm_compute in H. injection H as <-. discriminate.
Qed.

Lemma setSnooze_overwrites_expiry_only_witness :
  let w := world_with {[ snoozeKey sample_key := "1000" ]} in
  let w' := world_of (setSnooze sample_format None 2000000 "redis://db" sample_key 2 w) in
  expiresAt (stateOf (redis w' !! snoozeKey sample_key) 2000000) = Some (Num 3209600).
Proof.
  assert (He : intValue (expiryOf 2000000 2) = Some 3209600) by (vm_compute; reflexivity).
  assert (Hlt : Z.abs 3209600 < 2 ^ 53) by reflexivity.
  pose proof (setSnooze_overwrites_expiry_only sample_format "redis://db" sample_key 2
                2000000 (world_with {[ snoozeKey sample_key := "1000" ]})) as H.
  cbv zeta in H. destruct H as (_ & _ & H & _). exact (H 3209600 He Hlt).
Defined.

(** C2, counterexample. A record whose resume-sent flag is set keeps the
    flag through [setSnooze]: the flag reads as sent afterwards. *)
Lemma setSnooze_keeps_resume_flag :
  let w := {| redis := {[ snoozeKey "37.8044,-122.2708" := "1000";
                          resumeSentKey "37.8044,-122.2708" := "1" ]};
              fuse := None; trace := [] |} in
  let w' := world_of (setSnooze sample_format None 2000 "redis://r" "37.8044,-122.2708" 2 w) in
  redis w' !! snoozeKey "37.8044,-122.2708" = Some "1211600" /\
  response_of (hasResumeEmailBeenSent None "redis://r" "37.8044,-122.2708" w') = Ok true /\
  response_of (hasResumeEmailBeenSent None "redis://r" "37.8044,-122.2708" w') <> Ok false.
Proof. vm_compute. repeat split; congruence. Qed.

Lemma boundary_total_selects_high_witness :
  (1.0 =? snoozeHighMin default_settings)%float = true /\
  (snoozeHighMin default_settings =? snoozeMediumMax default_settings)%float = true /\
  selectTier default_settings 1.0 = Some High /\
  (1.0 <=? snoozeMediumMax default_settings)%float = true /\
  exists r w',
    precipitationCheck sample_format sample_env default_settings
      (sample_oracle 2000000 [25.4]%float None None None None)
      "redis://db" sample_key (world_with ∅) = (Ok r, w') /\
    field "snoozeWeeks" (body r) = Some (JNum 3) /\
    redis w' = <[snoozeKey sample_key := "3814400"]> ∅.
Proof.
  pose proof (boundary_total_selects_high sample_format default_settings 1.0 eq_refl eq_refl)
    as (H1 & _ & H2 & Hrun & _).
  split; [reflexivity|]. split; [reflexivity|]. split; [exact H1|]. split; [exact H2|].
  assert (Hv : validTime (expiryOf 2000000 (snoozeHighWeeks default_settings) * 1000) = true)
    by (vm_compute; reflexivity).
  destruct (Hrun sample_env (sample_oracle 2000000 [25.4]%float None None None None)
              "redis://db" sample_key [25.4]%float [] (world_with ∅)
              eq_refl eq_refl eq_refl eq_refl eq_refl eq_refl Hv)
    as (w' & Hcheck & Hstore).
  do 2 eexists. split; [exact Hcheck|]. split; [reflexivity|]. exact Hstore.
Defined.

Lemma alert_iff_above_threshold_witness :
  exists r w',
    precipitationCheck sample_format sample_env default_settings
      (sample_oracle 2000000 [5.0; 2.0]%float None None None None)
      "redis://db" sample_key (world_with ∅) = (Ok r, w') /\
    field "message" (body r) = Some (JStr "No alert needed") /\
    mails (new_events (world_with ∅) w') = [].
Proof.
  destruct (alert_iff_above_threshold sample_format sample_env default_settings
              (sample_oracle 2000000 [5.0; 2.0]%float None None None None)
              "redis://db" sample_key [5.0; 2.0]%float [] (world_with ∅) eq_refl eq_refl)
    as (r & w' & rp & wp & Hrun & _ & Hmails & _ & _ & Hno).
  destruct (Hno eq_refl) as (Hr & _).
  exists r, w'. split; [exact Hrun|]. split; [rewrite Hr; reflexivity | exact Hmails].
Defined.

Lemma snooze_only_after_confirmed_alert_witness :
  exists r w',
    precipitationCheck sample_format sample_env default_settings
      (sample_oracle 2000000 [10.0; 10.0]%float None (Some "bounced") None None)
      "redis://db" sample_key (world_with ∅) = (Ok r, w') /\
    status r = 500 /\
    redis w' = ∅ /\
    redis_cmds (new_events (world_with ∅) w') = [].
Proof.
  destruct (snooze_only_after_confirmed_alert sample_format sample_env default_settings
              (sample_oracle 2000000 [10.0; 10.0]%float None (Some "bounced") None None)
              "redis://db" sample_key [10.0; 10.0]%float [] (world_with ∅) eq_refl eq_refl)
    as (r & w' & Hrun & Hfail & _).
  destruct (Hfail "bounced" eq_refl) as (Hr & Hev & Hst).
  exists r, w'. split; [exact Hrun|]. split; [rewrite Hr; reflexivity|].
  split; [exact Hst | rewrite Hev; reflexivity].
Defined.

Lemma snoozed_run_skips_witness :
  exists w',
    handler toFixed_sample sample_format sample_env default_settings
      (sample_oracle 2000000 [10.0; 10.0]%float None None None None)
      (world_with {[ snoozeKey sample_key := "3000000" ]}) =
      (Ok (Response_json 200
             [("success", JBool true); ("message", JStr "Currently snoozed");
              ("snoozed", JBool true); ("expiresAt", JIsoDate (3000000 * 1000))]), w') /\
    fetches (trace w') = [] /\ mails (trace w') = [].
Proof.
  assert (Hrec :
    redis (world_with {[ snoozeKey sample_key := "3000000" ]})
      !! snoozeKey (getLocationKey toFixed_sample (latitude default_settings)
                      (longitude default_settings)) = Some "3000000")
    by (vm_compute; reflexivity).
  assert (Hrange : Z.abs (3000000 * 1000) <= 8640000000000000) by discriminate.
  destruct (snoozed_run_skips sample_format toFixed_sample sample_env default_settings
              (sample_oracle 2000000 [10.0; 10.0]%float None None None None)
              (world_with {[ snoozeKey sample_key := "3000000" ]}) "3000000" 3000000
              eq_refl eq_refl eq_refl Hrec eq_refl eq_refl)
    as (r & w' & Hrun & _ & Hf & Hm & Hin & _).
  destruct (Hin Hrange) as (Hr & _). rewrite Hr in Hrun.
  exists w'. split; [exact Hrun|]. split; [exact Hf | exact Hm].
Defined.

(** C7, counterexample. With the medium tier set to 20000000 weeks, the
    first run alerts and writes an expiry beyond the range of [Date]. The
    second run finds the location snoozed, with the expiry strictly in
    the future, and returns no skip result: it answers "Internal server
    error" with status 500, without the expiry. *)
Lemma snoozed_far_expiry_fails :
  let run1 :=
    handler toFixed_sample sample_format sample_env far_settings
      (sample_oracle 2000000 [10.0; 10.0]%float None None None None) (world_with ∅) in
  let run2 :=
    handler toFixed_sample sample_format sample_env far_settings
      (sample_oracle 2086400 [10.0; 10.0]%float None None None None) (world_of run1) in
  redis (world_of run1) !! snoozeKey sample_key = Some "12096002000000" /\
  snoozeStatus (stateOf (redis (world_of run1) !! snoozeKey sample_key) 2086400) 2086400
    = SNOOZED /\
  response_of run2 =
    Ok (Response_json 500
          [("error", JStr "Internal server error"); ("details", JStr "Invalid time value")]) /\
  (forall r, response_of run2 = Ok r ->
     field "expiresAt" (body r) = None /\ field "snoozed" (body r) = None) /\
  fetches (new_events (world_of run1) (world_of run2)) = [].
Proof.
  cbv zeta. do 3 (split; [vm_compute; reflexivity|]).
  split; [|vm_compute; reflexivity].
  intros r H. vm_compute in H. injection H as <-. split; reflexivity.
Qed.

Lemma store_unreachable_fails_open_witness :
  exists r wA wB,
    handler toFixed_sample sample_format sample_env default_settings
      (sample_oracle 2000000 [10.0; 10.0]%float None None (Some 0%nat) None)
      (world_with {[ snoozeKey sample_key := "3000000" ]}) = (Ok r, wA) /\
    handler toFixed_sample sample_format sample_env default_settings
      (sample_oracle 2000000 [10.0; 10.0]%float None None None None)
      (world_with ∅) = (Ok r, wB).
Proof.
  assert (Hrec :
    redis (world_with ∅)
      !! snoozeKey (getLocationKey toFixed_sample (latitude default_settings)
                      (longitude default_settings)) = None)
    by (vm_compute; reflexivity).
  destruct (store_unreachable_fails_open sample_format toFixed_sample sample_env default_settings
              (sample_oracle 2000000 [10.0; 10.0]%float None None (Some 0%nat) None)
              (world_with {[ snoozeKey sample_key := "3000000" ]}) (world_with ∅) 0%nat
              eq_refl eq_refl eq_refl (le_S _ _ (le_S _ _ (le_n 1))) Hrec)
    as (w1 & r & wA & wB & evs & rest & _ & _ & HA & HB & _).
  exists r, wA, wB. split; [exact HA | exact HB].
Defined.

Lemma no_store_refines_plain_witness :
  exists rs ws rp wp,
    handler toFixed_sample sample_format sample_env_no_store default_settings
      (sample_oracle 2000000 [10.0; 10.0]%float None None None None)
      (world_with ∅) = (Ok rs, ws) /\
    Plain.handler sample_env_no_store default_settings
      (sample_oracle 2000000 [10.0; 10.0]%float None None None None)
      (world_with ∅) = (Ok rp, wp) /\
    field "message" (body rs) = field "message" (body rp) /\
    List.map (with_degree degree_plain) (mails (new_events (world_with ∅) ws)) =
      mails (new_events (world_with ∅) wp) /\
    redis_cmds (new_events (world_with ∅) ws) = [].
Proof.
  destruct (no_store_refines_plain sample_format toFixed_sample sample_env_no_store
              default_settings
              (sample_oracle 2000000 [10.0; 10.0]%float None None None None)
              (world_with ∅) eq_refl)
    as (rs & ws & rp & wp & Hs & Hp & _ & Hcmds & _ & Hmsg & _ & _ & Hmails & _).
  exists rs, ws, rp, wp. repeat split; assumption.
Defined.

(** C10, on the code. With no Redis URL set and 20 mm of rain, both
    handlers send one alert mail with the same sender, recipient, location,
    dates, total and threshold, and the two mails are not the same: the
    handler with snooze support writes the bytes EC A7 B8 after the
    coordinates where the plain handler writes the degree sign. *)
Lemma alert_mail_differs_from_plain :
  let o := sample_oracle 2000000 [10.0; 10.0]%float None None None None in
  let run_snooze :=
    handler toFixed_sample sample_format sample_env_no_store default_settings o
      (world_with ∅) in
  let run_plain := Plain.handler sample_env_no_store default_settings o (world_with ∅) in
  mails (trace (world_of run_snooze)) =
    [EvSend (AlertMail "alerts@example.org" "owner@example.org" degree_snooze
               37.8044 (-122.2708) "2025-01-01" "2025-01-08"
               (totalInches [10.0; 10.0]%float) 0.5) None] /\
  mails (trace (world_of run_plain)) =
    [EvSend (AlertMail "alerts@example.org" "owner@example.org" degree_plain
               37.8044 (-122.2708) "2025-01-01" "2025-01-08"
               (totalInches [10.0; 10.0]%float) 0.5) None] /\
  mails (trace (world_of run_snooze)) <> mails (trace (world_of run_plain)).
Proof.
  vm_compute. repeat split; intros H; discriminate H.
Qed.

Lemma resume_failure_clears_record_witness :
  exists w1,
    snoozeCheck sample_env default_settings
      (sample_oracle 2000000 [5.0; 2.0]%float (Some "bounced") None None None)
      "redis://db" sample_key (world_with {[ snoozeKey sample_key := "1000000" ]})
      = (Ok None, w1) /\
    redis w1 !! snoozeKey sample_key = None /\
    redis w1 !! resumeSentKey sample_key = None.
Proof.
  assert (Hrec :
    redis (world_with {[ snoozeKey sample_key := "1000000" ]})
      !! snoozeKey (getLocationKey toFixed_sample (latitude default_settings)
                      (longitude default_settings)) = Some "1000000")
    by (vm_compute; reflexivity).
  assert (Hflag :
    strict_eq (redis (world_with {[ snoozeKey sample_key := "1000000" ]})
      !! resumeSentKey (getLocationKey toFixed_sample (latitude default_settings)
                          (longitude default_settings))) "1" = false)
    by (vm_compute; reflexivity).
  assert (Hnz : 1000000 <> 0) by discriminate.
  assert (Hle : 1000000 <= 2000000) by discriminate.
  destruct (resume_failure_clears_record sample_format toFixed_sample sample_env default_settings
              (sample_oracle 2000000 [5.0; 2.0]%float (Some "bounced") None None None)
              (world_with {[ snoozeKey sample_key := "1000000" ]}) "1000000" 1000000 "bounced"
              eq_refl eq_refl eq_refl eq_refl eq_refl Hrec eq_refl Hnz Hle Hle Hflag eq_refl)
    as (w1 & _ & Hrun & _ & _ & Hgone & Hflag' & _).
  exists w1. split; [exact Hrun|]. split; [exact Hgone | exact Hflag'].
Defined.

(** C1, counterexample. The snooze has expired and the mail service
    rejects the resume notice. The run clears the record, so the state is
    ACTIVE afterwards, not EXPIRING; the next run, with the mail service
    working again, sends no resume notice: none was ever delivered. *)
Lemma resume_notice_lost :
  let w0 := world_with {[ snoozeKey sample_key := "1000000" ]} in
  let run1 :=
    handler toFixed_sample sample_format sample_env default_settings
      (sample_oracle 2000000 [5.0; 2.0]%float (Some "bounced") None None None) w0 in
  let run2 :=
    handler toFixed_sample sample_format sample_env default_settings
      (sample_oracle 2086400 [5.0; 2.0]%float None None None None) (world_of run1) in
  snoozeStatus (stateOf (redis w0 !! snoozeKey sample_key) 2000000) 2000000 = EXPIRING /\
  resume_mails (trace (world_of run1)) =
    [EvSend (ResumeMail "alerts@example.org" "owner@example.org" 37.8044 (-122.2708))
       (Some "bounced")] /\
  redis (world_of run1) !! snoozeKey sample_key = None /\
  snoozeStatus (stateOf (redis (world_of run1) !! snoozeKey sample_key) 2086400) 2086400
    = ACTIVE /\
  snoozeStatus (stateOf (redis (world_of run1) !! snoozeKey sample_key) 2086400) 2086400
    <> EXPIRING /\
  resume_mails (new_events (world_of run1) (world_of run2)) = [] /\
  delivered_resume (trace (world_of run2)) = [].
Proof. vm_compute. repeat split. discriminate. Qed.

(** C3, on the code. Redis is unreachable when [setSnooze] connects, after
    the alert mail was delivered. The run answers "Alert sent" with
    [snoozed: true] and [snoozeWeeks: 2], the very response of the run in
    which the write went through; the failure shows only as a
    [console.error] line, and the store holds no snooze record. *)
Lemma set_failure_reported_as_snoozed :
  let run_fail :=
    handler toFixed_sample sample_format sample_env default_settings
      (sample_oracle 2000000 [10.0; 10.0]%float None None None (Some 0%nat))
      (world_with ∅) in
  let run_ok :=
    handler toFixed_sample sample_format sample_env default_settings
      (sample_oracle 2000000 [10.0; 10.0]%float None None None None)
      (world_with ∅) in
  response_of run_fail =
    Ok (Response_json 200
          [("success", JBool true); ("message", JStr "Alert sent");
           ("precipitation", JNum (totalInches [10.0; 10.0]%float));
           ("threshold", JNum 0.5);
           ("location", location_json default_settings);
           ("dateRange",
            JObj [("start", JStr "2025-01-01"); ("end", JStr "2025-01-08")]);
           ("snoozed", JBool true); ("snoozeWeeks", JNum 2)]) /\
  response_of run_fail = response_of run_ok /\
  redis (world_of run_fail) !! snoozeKey sample_key = None /\
  redis (world_of run_ok) !! snoozeKey sample_key = Some "3209600" /\
  trace (world_of run_fail) =
    [EvRedis (Connect "redis://db") true; EvRedis (Get (snoozeKey sample_key)) true;
     EvRedis Quit true;
     EvFetch 37.8044 (-122.2708) "2025-01-01" "2025-01-08";
     EvSend (AlertMail "alerts@example.org" "owner@example.org" degree_snooze 37.8044 (-122.2708)
               "2025-01-01" "2025-01-08" (totalInches [10.0; 10.0]%float) 0.5) None;
     EvRedis (Connect "redis://db") false;
     EvError "Error setting snooze:"; EvError "Failed to set snooze:"].
Proof. vm_compute. repeat split. Qed.

(** ** Further sample runs *)

(** The record outlives a failed resume notice only when [clearSnooze]
    fails too, before its first [DEL]: the run then ends with status 500
    and the next run sends the notice. *)
Example resume_retried_only_when_clear_fails :
  let w0 := world_with {[ snoozeKey sample_key := "1000000" ]} in
  let run1 :=
    handler toFixed_sample sample_format sample_env default_settings
      (with_clear_fault (Some 0%nat)
         (sample_oracle 2000000 [5.0; 2.0]%float (Some "bounced") None None None)) w0 in
  let run2 :=
    handler toFixed_sample sample_format sample_env default_settings
      (sample_oracle 2086400 [5.0; 2.0]%float None None None None) (world_of run1) in
  response_of run1 =
    Ok (Response_json 500
          [("error", JStr "Internal server error"); ("details", JStr "redis")]) /\
  redis (world_of run1) !! snoozeKey sample_key = Some "1000000" /\
  delivered_resume (new_events (world_of run1) (world_of run2)) =
    [EvSend (ResumeMail "alerts@example.org" "owner@example.org" 37.8044 (-122.2708)) None] /\
  redis (world_of run2) !! snoozeKey sample_key = None.
Proof. vm_compute. repeat split. Qed.

(** A set flag can meet [setSnooze] in the handler. Run 1 resolves an
    expiry, delivers the resume notice and marks it, and the second [DEL]
    of [clearSnooze] is rejected: the flag stays. Run 2 alerts and snoozes
    over the stale flag. Run 3, after that snooze has expired, finds the
    flag set and sends no resume notice. *)
Example stale_flag_suppresses_resume :
  let w0 := world_with {[ snoozeKey sample_key := "1000000" ]} in
  let run1 :=
    handler toFixed_sample sample_format sample_env default_settings
      (with_clear_fault (Some 2%nat)
         (sample_oracle 2000000 [5.0; 2.0]%float None None None None)) w0 in
  let run2 :=
    handler toFixed_sample sample_format sample_env default_settings
      (sample_oracle 2086400 [10.0; 10.0]%float None None None None) (world_of run1) in
  let run3 :=
    handler toFixed_sample sample_format sample_env default_settings
      (sample_oracle 4000000 [5.0; 2.0]%float None None None None) (world_of run2) in
  map_to_list (redis (world_of run1)) = [(resumeSentKey sample_key, "1")] /\
  redis (world_of run2) !! snoozeKey sample_key = Some "3296000" /\
  redis (world_of run2) !! resumeSentKey sample_key = Some "1" /\
  snoozeStatus (stateOf (redis (world_of run2) !! snoozeKey sample_key) 4000000) 4000000
    = EXPIRING /\
  resume_mails (new_events (world_of run2) (world_of run3)) = [] /\
  redis (world_of run3) = ∅.
Proof. vm_compute. repeat split. Qed.

Lemma setSnooze_other_location_witness :
  let w1 :=
    world_of (setSnooze sample_format None 2000000 "redis://db" sample_key 2 (world_with ∅)) in
  redis w1 !! snoozeKey sample_key = Some "3209600" /\
  response_of (getSnoozeState None 2000000 "redis://db" "51.5074,-0.1278" w1) =
    response_of (getSnoozeState None 2000000 "redis://db" "51.5074,-0.1278" (world_with ∅)).
Proof.
  assert (Hne : sample_key <> "51.5074,-0.1278") by discriminate.
  split; [vm_compute; reflexivity|].
  exact (setSnooze_other_location sample_format None "redis://db" sample_key
           "51.5074,-0.1278" 2000000 2 2000000 (world_with ∅) Hne).
Defined.

Lemma expiry_not_after_now_does_not_snooze_witness :
  let w1 :=
    world_of (setSnooze sample_format None 2000000 "redis://db" sample_key (-1)
                (world_with ∅)) in
  exists st w2,
    getSnoozeState None 2000000 "redis://db" sample_key w1 = (Ok st, w2) /\
    isSnoozed st = false /\
    snoozeStatus st 2000000 = EXPIRING.
Proof.
  assert (He : intValue (expiryOf 2000000 (-1)) = Some 1395200) by (vm_compute; reflexivity).
  assert (Hlt : Z.abs 1395200 < 2 ^ 53) by reflexivity.
  assert (Hle : 1395200 <= 2000000) by discriminate.
  exact (expiry_not_after_now_does_not_snooze sample_format "redis://db" sample_key (-1)
           2000000 1395200 (world_with ∅) He Hlt Hle).
Defined.

Lemma nan_never_alerts_witness :
  exists r w',
    precipitationCheck sample_format sample_env default_settings
      (sample_oracle 2000000 [30.0; nan; 30.0]%float None None None None)
      "redis://db" sample_key (world_with ∅) = (Ok r, w') /\
    field "message" (body r) = Some (JStr "No alert needed") /\
    mails (new_events (world_with ∅) w') = [].
Proof.
  assert (Hnan : is_nan (thresholdInches default_settings) = true \/
                 (exists v, In v [30.0; nan; 30.0]%float /\ is_nan v = true)).
  { right. exists nan. split; [right; left; reflexivity | reflexivity]. }
  destruct (nan_never_alerts sample_format sample_env default_settings
              (sample_oracle 2000000 [30.0; nan; 30.0]%float None None None None)
              "redis://db" sample_key [30.0; nan; 30.0]%float [] (world_with ∅)
              eq_refl Hnan)
    as (r & w' & Hrun & Hmsg & Hmails & _).
  exists r, w'. split; [exact Hrun|]. split; [exact Hmsg | exact Hmails].
Defined.

Lemma adjoining_bands_cover_alerts_witness :
  selectTier default_settings 0.75 = Some Medium /\
  selectTier default_settings 2.5 = Some High.
Proof.
  split.
  - exact (adjoining_bands_cover_alerts default_settings 0.75 eq_refl eq_refl eq_refl).
  - exact (adjoining_bands_cover_alerts default_settings 2.5 eq_refl eq_refl eq_refl).
Defined.


Lemma expired_notice_delivered_witness :
  exists w1,
    handler toFixed_sample sample_format sample_env default_settings
      (sample_oracle 2000000 [5.0; 2.0]%float None None None None)
      (world_with {[ snoozeKey sample_key := "1000000" ]}) =
    checkRun sample_format sample_env default_settings
      (sample_oracle 2000000 [5.0; 2.0]%float None None None None)
      "redis://db" sample_key w1 /\
    redis w1 !! snoozeKey sample_key = None /\
    redis w1 !! resumeSentKey sample_key = None.
Proof.
  assert (Hrec :
    redis (world_with {[ snoozeKey sample_key := "1000000" ]})
      !! snoozeKey (getLocationKey toFixed_sample (latitude default_settings)
                      (longitude default_settings)) = Some "1000000")
    by (vm_compute; reflexivity).
  assert (Hflag :
    strict_eq (redis (world_with {[ snoozeKey sample_key := "1000000" ]})
      !! resumeSentKey (getLocationKey toFixed_sample (latitude default_settings)
                          (longitude default_settings))) "1" = false)
    by (vm_compute; reflexivity).
  assert (Hnz : 1000000 <> 0) by discriminate.
  assert (Hle : 1000000 <= 2000000) by discriminate.
  destruct (expired_notice_delivered sample_format toFixed_sample sample_env default_settings
              (sample_oracle 2000000 [5.0; 2.0]%float None None None None)
              (world_with {[ snoozeKey sample_key := "1000000" ]}) "1000000" 1000000
              eq_refl eq_refl eq_refl eq_refl eq_refl eq_refl Hrec eq_refl Hnz Hle Hle
              Hflag eq_refl)
    as (w1 & Hrun & _ & Hgone & Hflag' & _).
  exists w1. split; [exact Hrun|]. split; [exact Hgone | exact Hflag'].
Defined.

Lemma expired_already_notified_witness :
  exists w1,
    handler toFixed_sample sample_format sample_env default_settings
      (sample_oracle 2000000 [5.0; 2.0]%float None None None None)
      (world_with {[ snoozeKey sample_key := "1000000"; resumeSentKey sample_key := "1" ]}) =
    checkRun sample_format sample_env default_settings
      (sample_oracle 2000000 [5.0; 2.0]%float None None None None)
      "redis://db" sample_key w1 /\
    mails (new_events
             (world_with {[ snoozeKey sample_key := "1000000";
                            resumeSentKey sample_key := "1" ]}) w1) = [].
Proof.
  assert (Hrec :
    redis (world_with {[ snoozeKey sample_key := "1000000"; resumeSentKey sample_key := "1" ]})
      !! snoozeKey (getLocationKey toFixed_sample (latitude default_settings)
                      (longitude default_settings)) = Some "1000000")
    by (vm_compute; reflexivity).
  assert (Hflag :
    redis (world_with {[ snoozeKey sample_key := "1000000"; resumeSentKey sample_key := "1" ]})
      !! resumeSentKey (getLocationKey toFixed_sample (latitude default_settings)
                          (longitude default_settings)) = Some "1")
    by (vm_compute; reflexivity).
  assert (Hnz : 1000000 <> 0) by discriminate.
  assert (Hle : 1000000 <= 2000000) by discriminate.
  destruct (expired_already_notified sample_format toFixed_sample sample_env default_settings
              (sample_oracle 2000000 [5.0; 2.0]%float None None None None)
              (world_with {[ snoozeKey sample_key := "1000000";
                             resumeSentKey sample_key := "1" ]}) "1000000" 1000000
              eq_refl eq_refl eq_refl eq_refl eq_refl Hrec eq_refl Hnz Hle Hle Hflag)
    as (w1 & Hrun & Hmails & _).
  exists w1. split; [exact Hrun | exact Hmails].
Defined.

Lemma flag_check_failure_resends_witness :
  exists w1 evs,
    handler toFixed_sample sample_format sample_env default_settings
      (with_has_fault (Some 0%nat)
         (sample_oracle 2000000 [5.0; 2.0]%float None None None None))
      (world_with {[ snoozeKey sample_key := "1000000"; resumeSentKey sample_key := "1" ]}) =
    checkRun sample_format sample_env default_settings
      (with_has_fault (Some 0%nat)
         (sample_oracle 2000000 [5.0; 2.0]%float None None None None))
      "redis://db" sample_key w1 /\
    trace w1 = evs /\
    length (mails evs) = 1%nat.
Proof.
  assert (Hrec :
    redis (world_with {[ snoozeKey sample_key := "1000000"; resumeSentKey sample_key := "1" ]})
      !! snoozeKey (getLocationKey toFixed_sample (latitude default_settings)
                      (longitude default_settings)) = Some "1000000")
    by (vm_compute; reflexivity).
  assert (Hnz : 1000000 <> 0) by discriminate.
  assert (Hle : 1000000 <= 2000000) by discriminate.
  assert (Hk : (0 < 3)%nat) by (repeat constructor).
  destruct (flag_check_failure_resends sample_format toFixed_sample sample_env default_settings
              (with_has_fault (Some 0%nat)
                 (sample_oracle 2000000 [5.0; 2.0]%float None None None None))
              (world_with {[ snoozeKey sample_key := "1000000";
                             resumeSentKey sample_key := "1" ]}) "1000000" 1000000 0%nat
              eq_refl eq_refl eq_refl eq_refl Hk eq_refl eq_refl Hrec eq_refl Hnz Hle Hle
              eq_refl)
    as (w1 & evs & Hrun & Htr & Hmails & _).
  exists w1, evs. split; [exact Hrun|]. split; [exact Htr|]. rewrite Hmails. reflexivity.
Defined.

Lemma clear_failure_aborts_run_witness :
  exists w',
    handler toFixed_sample sample_format sample_env default_settings
      (with_clear_fault (Some 2%nat)
         (sample_oracle 2000000 [5.0; 2.0]%float None None None None))
      (world_with {[ snoozeKey sample_key := "1000000" ]}) =
      (Ok (Response_json 500
             [("error", JStr "Internal server error"); ("details", JStr "redis")]), w') /\
    fetches (new_events (world_with {[ snoozeKey sample_key := "1000000" ]}) w') = [].
Proof.
  assert (Hrec :
    redis (world_with {[ snoozeKey sample_key := "1000000" ]})
      !! snoozeKey (getLocationKey toFixed_sample (latitude default_settings)
                      (longitude default_settings)) = Some "1000000")
    by (vm_compute; reflexivity).
  assert (Hnz : 1000000 <> 0) by discriminate.
  assert (Hle : 1000000 <= 2000000) by discriminate.
  assert (Hk : (2 < 4)%nat) by (repeat constructor).
  destruct (clear_failure_aborts_run sample_format toFixed_sample sample_env default_settings
              (with_clear_fault (Some 2%nat)
                 (sample_oracle 2000000 [5.0; 2.0]%float None None None None))
              (world_with {[ snoozeKey sample_key := "1000000" ]}) "1000000" 1000000 2%nat
              eq_refl eq_refl eq_refl eq_refl Hk Hrec eq_refl Hnz Hle Hle)
    as (w' & Hrun & Hf & _).
  exists w'. split; [exact Hrun | exact Hf].
Defined.

Lemma missing_env_stops_run_witness :
  handler toFixed_sample sample_format sample_env_no_sender default_settings
    (sample_oracle 2000000 [10.0; 10.0]%float None None None None) (world_with ∅) =
    (Ok (Response_json 500
           [("error", JStr "Missing required environment variables");
            ("missing", JStrs ["SENDER_EMAIL"])]),
     {| redis := ∅; fuse := None;
        trace := [EvError "Missing required environment variables:"] |}).
Proof.
  assert (Hvars : missingVars sample_env_no_sender <> []) by discriminate.
  exact (proj1 (missing_env_stops_run sample_format toFixed_sample sample_env_no_sender default_settings
                  (sample_oracle 2000000 [10.0; 10.0]%float None None None None)
                  (world_with ∅) Hvars)).
Defined.

Lemma alert_snoozes_next_run_witness :
  exists r1 w1 w2,
    handler toFixed_sample sample_format sample_env default_settings
      (sample_oracle 2000000 [10.0; 10.0]%float None None None None) (world_with ∅)
      = (Ok r1, w1) /\
    handler toFixed_sample sample_format sample_env default_settings
      (sample_oracle 2086400 [10.0; 10.0]%float None None None None) w1 =
      (Ok (Response_json 200
             [("success", JBool true); ("message", JStr "Currently snoozed");
              ("snoozed", JBool true);
              ("expiresAt", JIsoDate (3209600 * 1000))]), w2) /\
    mails (new_events w1 w2) = [].
Proof.
  assert (Hrec :
    redis (world_with ∅)
      !! snoozeKey (getLocationKey toFixed_sample (latitude default_settings)
                      (longitude default_settings)) = None)
    by (vm_compute; reflexivity).
  assert (Hsel : selectTier default_settings (totalInches [10.0; 10.0]%float) = Some Medium)
    by (vm_compute; reflexivity).
  assert (He : intValue (expiryOf 2000000 (tierWeeks default_settings Medium)) = Some 3209600)
    by (vm_compute; reflexivity).
  assert (Hrange : Z.abs (3209600 * 1000) <= 8640000000000000) by discriminate.
  assert (Hnow : 2086400 < 3209600) by reflexivity.
  destruct (alert_snoozes_next_run sample_format toFixed_sample sample_env default_settings
              (sample_oracle 2000000 [10.0; 10.0]%float None None None None)
              (sample_oracle 2086400 [10.0; 10.0]%float None None None None)
              (world_with ∅) [10.0; 10.0]%float [] Medium 3209600
              eq_refl eq_refl eq_refl eq_refl Hrec eq_refl eq_refl eq_refl Hsel He Hrange
              eq_refl Hnow)
    as (r1 & w1 & w2 & Hrun1 & _ & _ & Hrun2 & _ & Hmails & _).
  exists r1, w1, w2. split; [exact Hrun1|]. split; [exact Hrun2 | exact Hmails].
Defined.

Lemma weather_unavailable_is_safe_witness :
  exists r w' note,
    checkRun sample_format sample_env default_settings
      (with_weather (FetchReturns None)
         (sample_oracle 2000000 [] None None None None))
      "redis://db" sample_key (world_with ∅) = (Ok r, w') /\
    error_response r /\
    new_events (world_with ∅) w' =
      [EvFetch 37.8044 (-122.2708) "2025-01-01" "2025-01-08"; EvError note] /\
    redis w' = ∅.
Proof.
  assert (Hbad : forall vs rest,
    weather (with_weather (FetchReturns None)
               (sample_oracle 2000000 [] None None None None)) <>
    FetchReturns (Some ({| daily := Some (Some vs) |} :: rest)))
    by (intros vs rest H; discriminate H).
  exact (weather_unavailable_is_safe sample_format sample_env default_settings
           (with_weather (FetchReturns None)
              (sample_oracle 2000000 [] None None None None))
           "redis://db" sample_key (world_with ∅) Hbad).
Defined.
